(** * News-article pipeline (newsapp.py, newsapp2.py): a shallow embedding

    The two Streamlit scripts fetch a news article, clean it, and ask the
    Gemini service for a Thai summary and a five-word vocabulary table.
    [newsapp.py] scrapes the page itself and asks Gemini to clean the text;
    [newsapp2.py] delegates fetching and cleaning to Gemini.  ([app.py], a
    separate data-explorer demo, takes no part in the pipeline.)

    Modelling conventions.
    - A Python [str] is a [string]; one character of the model stands for one
      code point, and [len] is the number of characters as an integer.
    - Everything outside the process (the HTTP fetch, the Gemini client, the
      JSON decoder, and pandas on data other than a list of records) is a
      field of a [World]: the scripts are functions of the world and of the
      widget inputs.
    - A run is observed through its trace: the list of external calls
      ([requests.get], [genai.Client], [generate_content], [time.sleep]) and
      of Streamlit output calls, in program order.  [st.stop()] ends the
      trace.  The page set-up, the input widgets and the spinners are left
      out; the widget values are the [Inputs] of a run.
    - The outcome of the n-th [generate_content] call of a run is
      [generate_content w client n request]; a script threads the number of
      calls issued so far.
    - User-facing Thai messages, prompts and system instructions are
      constructors carrying the values that the source interpolates in them.
    - Exceptions are the instances of [Exception], the class the handlers of
      the source range over. *)

From Stdlib Require Import List String Ascii ZArith Lia Bool Permutation.
From Stdlib Require Import DecimalString.
Import ListNotations.
Set Warnings "-register-all".
Local Open Scope string_scope.
Local Open Scope list_scope.
Local Open Scope Z_scope.

(** ** Python values *)

Definition str := string.

(** [len(s)] *)
Definition len (s : str) : Z := Z.of_nat (String.length s).

(** Truth value of a [str]: the empty string is false. *)
Definition truthy (s : str) : bool :=
  match s with
  | EmptyString => false
  | String _ _ => true
  end.

(** [s[:n]] for [n >= 0] *)
Definition slice_to (n : Z) (s : str) : str := substring 0 (Z.to_nat n) s.

(** [range(n)]: empty when [n <= 0]. *)
Definition py_range (n : Z) : list Z := map Z.of_nat (seq 0 (Z.to_nat n)).

(** Exception classes that the handlers of the source tell apart:
    [google.genai.errors.APIError], [requests.exceptions.RequestException],
    [json.JSONDecodeError] and every other [Exception]. *)
Inductive ExcClass : Type :=
| APIError
| RequestException
| JSONDecodeError
| OtherException.

Record PyExc : Type := mkExc { exc_class : ExcClass; exc_text : str }.

Definition ExcClass_eqb (a b : ExcClass) : bool :=
  match a, b with
  | APIError, APIError => true
  | RequestException, RequestException => true
  | JSONDecodeError, JSONDecodeError => true
  | OtherException, OtherException => true
  | _, _ => false
  end.

(** [isinstance(e, c)] for the handler classes [APIError],
    [RequestException] and [JSONDecodeError]; [except Exception] takes what
    they leave. *)
Definition isinstance (e : PyExc) (c : ExcClass) : bool :=
  ExcClass_eqb (exc_class e) c.

(** Outcome of a call into a library: it returns or it raises. *)
Inductive PyResult (A : Type) : Type :=
| Returned (a : A)
| Raised (e : PyExc).
Arguments Returned {A} a.
Arguments Raised {A} e.

(** ** The generation request *)

(** The f-string prompts, by the value interpolated in them. *)
Inductive Prompt : Type :=
| extraction_prompt (noisy_text : str)       (* newsapp.py:64 *)
| url_extraction_prompt (url : str)          (* newsapp2.py:49 *)
| summary_prompt (clean_article_text : str)  (* newsapp.py:213, newsapp2.py:156 *)
| vocab_prompt (clean_article_text : str).   (* newsapp.py:261, newsapp2.py:204 *)

Inductive SystemInstruction : Type :=
| extraction_system_instruction       (* newsapp.py:78 *)
| url_extraction_system_instruction   (* newsapp2.py:60 *)
| summary_system_instruction
| vocab_system_instruction.

(** [types.Schema], without the [description] texts. *)
Inductive Schema : Type :=
| STRING
| OBJECT (properties : list (str * Schema)) (required : list str)
| ARRAY (items : Schema).

Record GenerateContentConfig : Type := mkConfig {
  system_instruction : SystemInstruction;
  response_mime_type : option str;
  response_schema : option Schema
}.

Definition MODEL_NAME : str := "gemini-2.5-flash".

Record Request : Type := mkRequest {
  model : str;
  contents : list Prompt;
  config : option GenerateContentConfig
}.

(** The response object; [response.text] is [None] or a string. *)
Record Response : Type := mkResponse { text : option str }.

(** [response and response.text]: a response object is true, so the test is
    the truth value of its text. *)
Definition response_text (response : option Response) : option str :=
  match response with
  | Some r =>
      match text r with
      | Some t => if truthy t then Some t else None
      | None => None
      end
  | None => None
  end.

Record Client : Type := mkClient { api_key : str }.

(** ** JSON values and data frames *)

(** What [json.loads] returns; an object keeps its keys in document order,
    as a Python [dict] does.  Numbers are kept as integers: nothing below
    depends on their value. *)
Inductive json : Type :=
| JNull
| JBool (b : bool)
| JNumber (z : Z)
| JString (s : str)
| JArray (items : list json)
| JObject (fields : list (str * json)).

(** Column labels: the keys of the records, or the three display names that
    the scripts assign (newsapp.py:276). *)
Inductive Label : Type :=
| Key (k : str)
| Position (i : Z)
| ColEnglishWord
| ColThaiTranslation
| ColExampleSentence.

(** A frame: its column labels and its rows; a cell is [None] where pandas
    puts NaN for a key that a record lacks. *)
Record DataFrame : Type := mkFrame {
  columns : list Label;
  rows : list (list (option json))
}.

(** ** Trace of a run *)

Inductive Message : Type :=
| MsgNoContent                               (* newsapp.py:45 *)
| MsgTruncated (max_length : Z)              (* newsapp.py:52 *)
| MsgRequestFailed (e : PyExc)               (* newsapp.py:57 *)
| MsgProcessingFailed (e : PyExc)            (* newsapp.py:59 *)
| MsgExtractionFailed                        (* newsapp.py:92 *)
| MsgUrlExtractionFailed                     (* newsapp2.py:74 *)
| MsgApiRetry (e : PyExc) (wait_time : Z)    (* newsapp.py:110 *)
| MsgApiExhausted (max_retries : Z) (e : PyExc) (* newsapp.py:113 *)
| MsgApiUnexpected (e : PyExc)               (* newsapp.py:116 *)
| MsgEnterUrl                                (* newsapp.py:154 *)
| MsgEnterKey                                (* newsapp.py:158 *)
| MsgBadUrl                                  (* newsapp.py:162 *)
| MsgNoMeaningfulText                        (* newsapp.py:174, newsapp2.py:137 *)
| MsgFetched                                 (* newsapp.py:177 *)
| MsgClientInit (e : PyExc)                  (* newsapp.py:183, newsapp2.py:126 *)
| MsgFallbackToNoisy                         (* newsapp.py:195 *)
| MsgCleaned                                 (* newsapp.py:197 *)
| MsgFetchedAndCleaned                       (* newsapp2.py:140 *)
| MsgNoSummary                               (* newsapp.py:230 *)
| MsgInvalidJson                             (* newsapp.py:293 *)
| MsgTableDisplay (e : PyExc)                (* newsapp.py:296 *)
| MsgNoVocab.                                (* newsapp.py:298 *)

Inductive Heading : Type :=
| HeadCleaning        (* newsapp.py:187 *)
| HeadFetchAndClean   (* newsapp2.py:47 *)
| HeadCleanText       (* newsapp.py:200 *)
| HeadSummary         (* newsapp.py:210 *)
| HeadVocabulary.     (* newsapp.py:234 *)

Inductive Event : Type :=
| EvHttpGet (url : str)                      (* requests.get(url, ...) *)
| EvClient (key : str)                       (* genai.Client(api_key=key) *)
| EvGenerate (client : Client) (request : Request)
                                             (* client.models.generate_content *)
| EvSleep (seconds : Z)                      (* time.sleep *)
| st_info (m : Message)
| st_error (m : Message)
| st_warning (m : Message)
| st_success (m : Message)
| st_header (h : Heading)
| st_subheader (h : Heading)
| st_text_area (value : str)
| st_markdown (summary : str)
| st_dataframe (df : DataFrame)
| st_text (body : str)
| st_stop.

(** ** The world *)

(** What [BeautifulSoup] exposes of a fetched page: the [get_text()] of each
    [p], [h1], [h2], [h3] element in document order, and, when the page has a
    body, [soup.body.get_text(separator='\n', strip=True)]. *)
Record Soup : Type := mkSoup {
  find_all_text : list str;
  body_text : option str
}.

Record World : Type := mkWorld {
  (** [requests.get], [raise_for_status] and the parse, newsapp.py:29-32 *)
  requests_get : str -> PyResult Soup;
  (** [genai.Client(api_key=...)] *)
  genai_Client : str -> PyResult Client;
  (** the n-th [generate_content] call of the run *)
  generate_content : Client -> nat -> Request -> PyResult Response;
  (** [json.loads] *)
  json_loads : str -> PyResult json;
  (** [pd.DataFrame(data)] for data that is not a list of records *)
  DataFrame_other : json -> PyResult DataFrame
}.

(** ** Scripts: effectful code that issues generation calls *)

(** A script receives the number of generation calls issued before it and
    yields a value and the events it produced. *)
Definition Script (A : Type) : Type := nat -> A * list Event.

Definition is_generate (e : Event) : bool :=
  match e with
  | EvGenerate _ _ => true
  | _ => false
  end.

(** Number of generation calls in a trace. *)
Definition ncalls (evs : list Event) : nat := List.length (filter is_generate evs).

Definition ret {A} (a : A) : Script A := fun _ => (a, []).

Definition bind {A B} (m : Script A) (f : A -> Script B) : Script B :=
  fun n =>
    let (a, evs1) := m n in
    let (b, evs2) := f a (n + ncalls evs1)%nat in
    (b, evs1 ++ evs2).

Definition emit (e : Event) : Script unit := fun _ => (tt, [e]).

(** [client.models.generate_content(model=..., contents=..., config=...)] *)
Definition call_generate (w : World) (client : Client) (request : Request)
  : Script (PyResult Response) :=
  fun n => (generate_content w client n request, [EvGenerate client request]).

Declare Scope script_scope.
Delimit Scope script_scope with script.
Notation "x <- m ;; k" := (bind m (fun x => k))
  (at level 61, m at next level, right associativity) : script_scope.
Notation "m ;; k" := (bind m (fun _ => k))
  (at level 61, right associativity) : script_scope.
Local Open Scope script_scope.

(** ** Retry controller (newsapp.py:95-118, newsapp2.py:20-43; the two
    definitions are identical) *)

(** The [for attempt in range(max_retries)] loop over the attempts left. *)
Fixpoint retry_loop (w : World) (client : Client) (request : Request)
    (max_retries : Z) (attempts : list Z) : Script (option Response) :=
  match attempts with
  | [] => ret None                                          (* line 118 *)
  | attempt :: rest =>
      r <- call_generate w client request ;;
      match r with
      | Returned response => ret (Some response)            (* line 105 *)
      | Raised e =>
          if isinstance e APIError then                     (* line 106 *)
            if attempt <? max_retries - 1 then
              let wait_time := 2 ^ attempt in
              emit (st_warning (MsgApiRetry e wait_time)) ;;
              emit (EvSleep wait_time) ;;
              retry_loop w client request max_retries rest
            else
              emit (st_error (MsgApiExhausted max_retries e)) ;;
              ret None                                      (* line 114 *)
          else                                              (* line 115 *)
            emit (st_error (MsgApiUnexpected e)) ;;
            ret None                                        (* line 117 *)
      end
  end.

Definition default_max_retries : Z := 3.

Definition make_gemini_call_with_retry (w : World) (client : Client)
    (contents : list Prompt) (config : option GenerateContentConfig)
    (max_retries : Z) : Script (option Response) :=
  retry_loop w client (mkRequest MODEL_NAME contents config) max_retries
    (py_range max_retries).

(** Durations of the backoff waits of a trace, in order. *)
Fixpoint sleeps (evs : list Event) : list Z :=
  match evs with
  | [] => []
  | EvSleep s :: rest => s :: sleeps rest
  | _ :: rest => sleeps rest
  end.

(** ** More of Python's [str] *)

Definition newline : str := String (ascii_of_nat 10) EmptyString.

(** [c.isspace()] for a character of the 8-bit range. *)
Definition isspace (c : ascii) : bool :=
  let n := Z.of_nat (nat_of_ascii c) in
  ((9 <=? n) && (n <=? 13)) || ((28 <=? n) && (n <=? 32))
  || (n =? 133) || (n =? 160).

Fixpoint lstrip (s : str) : str :=
  match s with
  | EmptyString => EmptyString
  | String c s' => if isspace c then lstrip s' else s
  end.

Fixpoint rstrip (s : str) : str :=
  match s with
  | EmptyString => EmptyString
  | String c s' =>
      match rstrip s' with
      | EmptyString => if isspace c then EmptyString else String c EmptyString
      | r => String c r
      end
  end.

(** [s.strip()] *)
Definition strip (s : str) : str := rstrip (lstrip s).

(** [sep.join(parts)] *)
Definition join (sep : str) (parts : list str) : str := String.concat sep parts.

(** [s.startswith(p)] *)
Definition startswith (s p : str) : bool := String.prefix p s.

(** The pair that the extraction functions return: [(text, None)] or
    [(None, message)]; no other shape is built in the source. *)
Inductive TextOrError : Type :=
| Text (t : str)
| Error (m : Message).

(** ** Building the vocabulary table (newsapp.py:272-276) *)

Fixpoint mem (k : str) (l : list str) : bool :=
  match l with
  | [] => false
  | x :: l' => String.eqb k x || mem k l'
  end.

(** [d.get(k)] on a decoded object *)
Fixpoint assoc (k : str) (fields : list (str * json)) : option json :=
  match fields with
  | [] => None
  | (k', v) :: rest => if String.eqb k k' then Some v else assoc k rest
  end.

Definition keys (fields : list (str * json)) : list str := map fst fields.

(** Appends to [seen] the keys of [ks] that are new, in order. *)
Fixpoint add_unseen (seen ks : list str) : list str :=
  match ks with
  | [] => seen
  | k :: ks' => if mem k seen then add_unseen seen ks'
                else add_unseen (seen ++ [k]) ks'
  end.

(** Columns of a frame built from records: every key, in order of first
    appearance. *)
Definition union_keys (records : list (list (str * json))) : list str :=
  fold_left (fun seen r => add_unseen seen (keys r)) records [].

(** A list whose elements are all objects, as a list of records. *)
Fixpoint as_records (items : list json) : option (list (list (str * json))) :=
  match items with
  | [] => Some []
  | JObject fields :: rest =>
      match as_records rest with
      | Some rs => Some (fields :: rs)
      | None => None
      end
  | _ :: _ => None
  end.

Definition row_of (cols : list str) (r : list (str * json)) : list (option json) :=
  map (fun k => assoc k r) cols.

(** [pd.DataFrame(records)]: one row per record, in order; one column per
    key; NaN where a record lacks the key. *)
Definition frame_of_records (records : list (list (str * json))) : DataFrame :=
  let cols := union_keys records in
  mkFrame (map Key cols) (map (row_of cols) records).

(** [pd.DataFrame(vocab_data)] *)
Definition pd_DataFrame (w : World) (data : json) : PyResult DataFrame :=
  match data with
  | JArray items =>
      match as_records items with
      | Some records => Returned (frame_of_records records)
      | None => DataFrame_other w data
      end
  | _ => DataFrame_other w data
  end.

(** [df.columns = names]: pandas raises [ValueError] on a length mismatch. *)
Definition set_columns (df : DataFrame) (names : list Label) : PyResult DataFrame :=
  if (List.length (columns df) =? List.length names)%nat
  then Returned (mkFrame names (rows df))
  else Raised (mkExc OtherException "Length mismatch").

Definition display_columns : list Label :=
  [ColEnglishWord; ColThaiTranslation; ColExampleSentence].

(** Body of the [try] up to the display call (newsapp.py:272-276). *)
Definition build_table (w : World) (t : str) : PyResult DataFrame :=
  match json_loads w t with
  | Raised e => Raised e
  | Returned vocab_data =>
      match pd_DataFrame w vocab_data with
      | Raised e => Raised e
      | Returned vocab_df => set_columns vocab_df display_columns
      end
  end.

(** ** Stages shared by the two scripts *)

Definition summary_config : GenerateContentConfig :=
  mkConfig summary_system_instruction None None.

(** newsapp.py:238-249, newsapp2.py:181-192 *)
Definition vocab_schema : Schema :=
  ARRAY (OBJECT [("English_Word", STRING);
                 ("Thai_Translation", STRING);
                 ("Example_Sentence", STRING)]
                ["English_Word"; "Thai_Translation"; "Example_Sentence"]).

Definition vocab_config : GenerateContentConfig :=
  mkConfig vocab_system_instruction (Some "application/json") (Some vocab_schema).

(** Display of the clean text (newsapp.py:199-207, newsapp2.py:142-150) *)
Definition show_clean_text (clean_article_text : str) : Script unit :=
  emit (st_header HeadCleanText) ;;
  emit (st_text_area clean_article_text).

(** Step 2, the Thai summary (newsapp.py:209-230, newsapp2.py:152-173) *)
Definition summary_stage (w : World) (client : Client) (clean_article_text : str)
  : Script unit :=
  emit (st_header HeadSummary) ;;
  summary_response <-
    make_gemini_call_with_retry w client [summary_prompt clean_article_text]
      (Some summary_config) default_max_retries ;;
  match response_text summary_response with
  | Some t => emit (st_markdown t)
  | None => emit (st_error MsgNoSummary)
  end.

(** The [try] of Step 3 with its two handlers (newsapp.py:270-296);
    [st.dataframe] is taken to display the frame without raising. *)
Definition show_table (w : World) (t : str) : Script unit :=
  match build_table w t with
  | Returned vocab_df => emit (st_dataframe vocab_df)
  | Raised e =>
      if isinstance e JSONDecodeError then
        emit (st_error MsgInvalidJson) ;;
        emit (st_text t)
      else
        emit (st_error (MsgTableDisplay e))
  end.

(** Step 3, the vocabulary table (newsapp.py:233-298, newsapp2.py:176-241) *)
Definition vocab_stage (w : World) (client : Client) (clean_article_text : str)
  : Script unit :=
  emit (st_header HeadVocabulary) ;;
  vocab_response <-
    make_gemini_call_with_retry w client [vocab_prompt clean_article_text]
      (Some vocab_config) default_max_retries ;;
  match response_text vocab_response with
  | Some t => show_table w t
  | None => emit (st_error MsgNoVocab)
  end.

(** From the display of the clean text to the end of either script. *)
Definition report_stages (w : World) (client : Client) (clean_article_text : str)
  : Script unit :=
  show_clean_text clean_article_text ;;
  summary_stage w client clean_article_text ;;
  vocab_stage w client clean_article_text.

(** The widget values of a run. *)
Record Inputs : Type := mkInputs {
  news_url : str;
  gemini_api_key : str;
  process_button : bool
}.

(** Input validation (newsapp.py:152-163, newsapp2.py:109-120): the events
    of a rejected input, or [None] when the input passes. *)
Definition input_validation (inp : Inputs) : option (list Event) :=
  if negb (truthy (news_url inp)) then Some [st_info MsgEnterUrl; st_stop]
  else if negb (truthy (gemini_api_key inp)) then Some [st_error MsgEnterKey; st_stop]
  else if negb (startswith (news_url inp) "http://"
                || startswith (news_url inp) "https://")
       then Some [st_error MsgBadUrl; st_stop]
  else None.

(** ** Conformance to a response schema *)

Fixpoint distinct (l : list str) : bool :=
  match l with
  | [] => true
  | x :: l' => negb (mem x l') && distinct l'
  end.

(** [conforms s j]: the decoded payload [j] has the shape that the schema
    [s] asks of the service: a string, an array of conforming items, or an
    object that has every required property and only declared ones, each of
    the declared type.  The scripts pass the schema to the service and never
    check the payload against it. *)
Fixpoint conforms (s : Schema) (j : json) {struct s} : bool :=
  match s, j with
  | STRING, JString _ => true
  | ARRAY items, JArray l => forallb (conforms items) l
  | OBJECT properties required, JObject fields =>
      distinct (keys fields)
      && forallb (fun k => mem k (keys fields)) required
      && forallb
           (fun kv : str * json =>
              (fix declared (props : list (str * Schema)) : bool :=
                 match props with
                 | [] => false
                 | (k, sk) :: props' =>
                     if String.eqb (fst kv) k then conforms sk (snd kv)
                     else declared props'
                 end) properties)
           fields
  | _, _ => false
  end.

(** The local-scrape variant. *)
Module Newsapp.

Definition max_length : Z := 15000.

(** newsapp.py:35-42: the text taken from the parsed page.  When the
    paragraphs give fewer than 100 characters the body text is used, and
    [soup.body] is [None] on a page without a body. *)
Definition extracted_text (soup : Soup) : PyResult str :=
  let article_text :=
    join newline (filter truthy (map strip (find_all_text soup))) in
  if len article_text <? 100 then
    match body_text soup with
    | Some t => Returned t
    | None =>
        Raised (mkExc OtherException
                  "'NoneType' object has no attribute 'get_text'")
    end
  else Returned article_text.

(** The two handlers of [get_article_text] (newsapp.py:56-59). *)
Definition fetch_error (e : PyExc) : TextOrError :=
  if isinstance e RequestException then Error (MsgRequestFailed e)
  else Error (MsgProcessingFailed e).

(** newsapp.py:22-59 *)
Definition get_article_text (w : World) (url : str)
  : TextOrError * list Event :=
  match requests_get w url with
  | Raised e => (fetch_error e, [EvHttpGet url])
  | Returned soup =>
      match extracted_text soup with
      | Raised e => (fetch_error e, [EvHttpGet url])
      | Returned article_text =>
          if negb (truthy article_text) then
            (Error MsgNoContent, [EvHttpGet url])
          else if len article_text >? max_length then
            (Text (String.append (slice_to max_length article_text) "..."),
             [EvHttpGet url; st_warning (MsgTruncated max_length)])
          else (Text article_text, [EvHttpGet url])
      end
  end.

Definition extraction_config : GenerateContentConfig :=
  mkConfig extraction_system_instruction None None.

(** newsapp.py:62-92 *)
Definition extract_main_content_with_gemini (w : World) (client : Client)
    (noisy_text : str) : Script TextOrError :=
  response <-
    make_gemini_call_with_retry w client [extraction_prompt noisy_text]
      (Some extraction_config) default_max_retries ;;
  match response_text response with
  | Some t => ret (Text (strip t))
  | None => ret (Error MsgExtractionFailed)
  end.

(** Step 1.5 (newsapp.py:186-197); yields [clean_article_text]. *)
Definition clean_stage (w : World) (client : Client)
    (noisy_article_text : str) : Script str :=
  emit (st_subheader HeadCleaning) ;;
  r <- extract_main_content_with_gemini w client noisy_article_text ;;
  match r with
  | Error extraction_error =>
      emit (st_error extraction_error) ;;
      emit (st_warning MsgFallbackToNoisy) ;;
      ret noisy_article_text
  | Text clean_article_text =>
      emit (st_success MsgCleaned) ;;
      ret clean_article_text
  end.

(** newsapp.py:152-197: everything up to the point where
    [clean_article_text] is fixed.  The result is the client and the clean
    text, or [None] when [st.stop()] ended the run. *)
Definition prepare (w : World) (inp : Inputs) : Script (option (Client * str)) :=
  match input_validation inp with
  | Some evs => fun _ => (None, evs)
  | None =>
      r <- (fun _ => get_article_text w (news_url inp)) ;;
      match r with
      | Error error => emit (st_error error) ;; emit st_stop ;; ret None
      | Text noisy_article_text =>
          if negb (truthy noisy_article_text) || (len noisy_article_text <? 50)
          then emit (st_error MsgNoMeaningfulText) ;; emit st_stop ;; ret None
          else
            emit (st_success MsgFetched) ;;
            emit (EvClient (gemini_api_key inp)) ;;
            match genai_Client w (gemini_api_key inp) with
            | Raised e =>
                emit (st_error (MsgClientInit e)) ;; emit st_stop ;; ret None
            | Returned client =>
                clean_article_text <- clean_stage w client noisy_article_text ;;
                ret (Some (client, clean_article_text))
            end
      end
  end.

(** newsapp.py:152-298 *)
Definition pipeline (w : World) (inp : Inputs) : Script unit :=
  r <- prepare w inp ;;
  match r with
  | Some (client, clean_article_text) =>
      report_stages w client clean_article_text
  | None => ret tt
  end.

(** The script body under [if process_button:] (newsapp.py:151-298). *)
Definition main (w : World) (inp : Inputs) : list Event :=
  if process_button inp then snd (pipeline w inp 0%nat) else [].

End Newsapp.

(** The delegated variant. *)
Module Newsapp2.

Definition extraction_config : GenerateContentConfig :=
  mkConfig url_extraction_system_instruction None None.

(** newsapp2.py:45-74 *)
Definition extract_article_content (w : World) (client : Client) (url : str)
  : Script TextOrError :=
  emit (st_subheader HeadFetchAndClean) ;;
  response <-
    make_gemini_call_with_retry w client [url_extraction_prompt url]
      (Some extraction_config) default_max_retries ;;
  match response_text response with
  | Some t => ret (Text (strip t))
  | None => ret (Error MsgUrlExtractionFailed)
  end.

(** newsapp2.py:109-140: everything up to the point where
    [clean_article_text] is accepted.  The result is the client and the
    clean text, or [None] when [st.stop()] ended the run. *)
Definition prepare (w : World) (inp : Inputs) : Script (option (Client * str)) :=
  match input_validation inp with
  | Some evs => fun _ => (None, evs)
  | None =>
      emit (EvClient (gemini_api_key inp)) ;;
      match genai_Client w (gemini_api_key inp) with
      | Raised e => emit (st_error (MsgClientInit e)) ;; emit st_stop ;; ret None
      | Returned client =>
          r <- extract_article_content w client (news_url inp) ;;
          match r with
          | Error extraction_error =>
              emit (st_error extraction_error) ;; emit st_stop ;; ret None
          | Text clean_article_text =>
              if negb (truthy clean_article_text)
                 || (len clean_article_text <? 50)
              then emit (st_error MsgNoMeaningfulText) ;; emit st_stop ;; ret None
              else
                emit (st_success MsgFetchedAndCleaned) ;;
                ret (Some (client, clean_article_text))
          end
      end
  end.

(** newsapp2.py:109-241 *)
Definition pipeline (w : World) (inp : Inputs) : Script unit :=
  r <- prepare w inp ;;
  match r with
  | Some (client, clean_article_text) =>
      report_stages w client clean_article_text
  | None => ret tt
  end.

(** The script body under [if process_button:] (newsapp2.py:108-241). *)
Definition main (w : World) (inp : Inputs) : list Event :=
  if process_button inp then snd (pipeline w inp 0%nat) else [].

End Newsapp2.

(** The two scripts, side by side. *)
Inductive Variant : Type :=
| LocalScrape     (* newsapp.py *)
| Delegated.      (* newsapp2.py *)

Definition prepare_of (v : Variant)
  : World -> Inputs -> Script (option (Client * str)) :=
  match v with
  | LocalScrape => Newsapp.prepare
  | Delegated => Newsapp2.prepare
  end.

Definition main_of (v : Variant) : World -> Inputs -> list Event :=
  match v with
  | LocalScrape => Newsapp.main
  | Delegated => Newsapp2.main
  end.

(** ** Vocabulary of the properties *)

(** The call fails with an [APIError] at the calls [n], ..., [n + k - 1] of
    the run. *)
Definition transient_failures (w : World) (client : Client) (request : Request)
    (n k : nat) : Prop :=
  forall j, (j < k)%nat ->
    exists e, generate_content w client (n + j) request = Raised e
              /\ isinstance e APIError = true.

(** The waits [1, 2, 4, ..., 2^(k-1)]. *)
Definition backoff_waits (k : nat) : list Z :=
  map (fun j => 2 ^ Z.of_nat j) (seq 0 k).

(** The events that the retry controller produces for a request. *)
Definition retry_event (client : Client) (request : Request) (e : Event) : Prop :=
  match e with
  | EvGenerate c r => c = client /\ r = request
  | EvSleep _ => True
  | st_warning (MsgApiRetry _ _) => True
  | st_error (MsgApiExhausted _ _) => True
  | st_error (MsgApiUnexpected _) => True
  | _ => False
  end.




(** The requests of the three stages that consume the clean text, and of
    the two extraction calls. *)
Definition summary_request (clean_article_text : str) : Request :=
  mkRequest MODEL_NAME [summary_prompt clean_article_text] (Some summary_config).

Definition vocab_request (clean_article_text : str) : Request :=
  mkRequest MODEL_NAME [vocab_prompt clean_article_text] (Some vocab_config).

Definition clean_request (noisy_text : str) : Request :=
  mkRequest MODEL_NAME [extraction_prompt noisy_text]
    (Some Newsapp.extraction_config).

Definition fetch_request (url : str) : Request :=
  mkRequest MODEL_NAME [url_extraction_prompt url]
    (Some Newsapp2.extraction_config).

(** The event that ends the summary stage (newsapp.py:227-230). *)
Definition summary_outcome (response : option Response) : Event :=
  match response_text response with
  | Some t => st_markdown t
  | None => st_error MsgNoSummary
  end.

(** The events that end the vocabulary stage (newsapp.py:269-298). *)
Definition vocab_outcome (w : World) (response : option Response) : list Event :=
  match response_text response with
  | Some t => snd (show_table w t 0%nat)
  | None => [st_error MsgNoVocab]
  end.

(** ** Sample worlds *)

Definition api_unavailable : PyExc := mkExc APIError "503 UNAVAILABLE".
Definition connection_reset : PyExc := mkExc OtherException "connection reset".
Definition value_error : PyExc :=
  mkExc OtherException "DataFrame constructor not properly called!".

Definition sample_client : Client := mkClient "key".

(** A world whose generation calls follow a script, call after call, and
    fail with [api_unavailable] once the script is over. *)
Definition scripted_world (page : PyResult Soup) (client : PyResult Client)
    (script : list (PyResult Response)) (decode : str -> PyResult json) : World :=
  mkWorld (fun _ => page) (fun _ => client)
          (fun _ n _ => nth n script (Raised api_unavailable))
          decode (fun _ => Raised value_error).

Definition no_page : PyResult Soup :=
  Raised (mkExc RequestException "404 Client Error").

Definition no_json (t : str) : PyResult json :=
  Raised (mkExc JSONDecodeError "Expecting value").

Definition answer (t : str) : PyResult Response :=
  Returned (mkResponse (Some t)).

(** A page with one paragraph of 15001 characters. *)
Definition long_text : str :=
  string_of_list_ascii (repeat "a"%char (Z.to_nat 15001)).

Definition long_page : Soup := mkSoup [long_text] None.

Definition sample_url : str := "https://example.com/news".

Definition sample_inputs : Inputs := mkInputs sample_url "key" true.

(** An article of 60 characters. *)
Definition sample_article : str :=
  "The council voted on Monday to rebuild the old river bridge.".

Definition sample_page : Soup := mkSoup [] (Some sample_article).


Definition short_text : str := "Too short.".

(** Two failures of the service, then an answer. *)
Definition world_recovers : World :=
  scripted_world no_page (Returned sample_client)
    [Raised api_unavailable; Raised api_unavailable; answer "ok"] no_json.

(** The service is unavailable at every call; the page has an article. *)
Definition world_unavailable : World :=
  scripted_world (Returned sample_page) (Returned sample_client) [] no_json.

Definition world_reset : World :=
  scripted_world no_page (Returned sample_client)
    [Raised connection_reset; answer "ok"] no_json.

Definition world_long_page : World :=
  scripted_world (Returned long_page) (Returned sample_client) [] no_json.

(** The service answers the first call with the article and then fails. *)
Definition world_one_answer : World :=
  scripted_world no_page (Returned sample_client) [answer sample_article] no_json.


(** Both fetchers obtain a text of ten characters. *)
Definition world_short : World :=
  scripted_world (Returned (mkSoup [] (Some short_text))) (Returned sample_client)
    [answer short_text] no_json.

(** ** Reading a decoded payload *)

(** The keys of an object, the value of one of its properties. *)
Definition object_keys (j : json) : list str :=
  match j with
  | JObject fields => keys fields
  | _ => []
  end.

Definition field (k : str) (j : json) : option json :=
  match j with
  | JObject fields => assoc k fields
  | _ => None
  end.

(** The keys of the first entry of a payload, in the order it lists them. *)
Definition first_keys (entries : list json) : list str :=
  match entries with
  | entry :: _ => object_keys entry
  | [] => []
  end.

Definition required_keys : list str :=
  ["English_Word"; "Thai_Translation"; "Example_Sentence"].

(** A cell that holds a string that is not empty. *)
Definition filled_cell (cell : option json) : bool :=
  match cell with
  | Some (JString s) => truthy s
  | _ => false
  end.

(** ** Sample payloads *)

Definition quote : str := String (ascii_of_nat 34) EmptyString.

(** The compact JSON text of a payload whose strings need no escape. *)
Fixpoint json_dumps (j : json) : str :=
  match j with
  | JNull => "null"
  | JBool true => "true"
  | JBool false => "false"
  | JNumber z => NilZero.string_of_int (Z.to_int z)
  | JString s => String.append quote (String.append s quote)
  | JArray items =>
      String.append "[" (String.append (join "," (map json_dumps items)) "]")
  | JObject fields =>
      String.append "{"
        (String.append
           (join ","
              (map (fun kv : str * json =>
                      String.append quote
                        (String.append (fst kv)
                           (String.append quote
                              (String.append ":" (json_dumps (snd kv))))))
                   fields))
           "}")
  end.

(** A decoder for a few known payloads: it inverts [json_dumps] on them and
    rejects every other text. *)
Definition decode_among (known : list json) (t : str) : PyResult json :=
  match find (fun j => String.eqb (json_dumps j) t) known with
  | Some j => Returned j
  | None => Raised (mkExc JSONDecodeError "Expecting value")
  end.

Definition vocab_entry (word translation sentence : str) : json :=
  JObject [("English_Word", JString word);
           ("Thai_Translation", JString translation);
           ("Example_Sentence", JString sentence)].

(** Five entries in the shape of the schema. *)
Definition five_items : list json :=
  [vocab_entry "council" "sapha" "The council voted on Monday.";
   vocab_entry "voted" "long khanaen" "The council voted on Monday.";
   vocab_entry "rebuild" "sang mai" "to rebuild the old river bridge";
   vocab_entry "river" "maenam" "the old river bridge";
   vocab_entry "bridge" "saphan" "the old river bridge"].

Definition five_entries : json := JArray five_items.

(** Five entries in the shape of the schema, one with an empty word. *)
Definition five_items_one_blank : list json :=
  [vocab_entry "" "sapha" "The council voted on Monday.";
   vocab_entry "voted" "long khanaen" "The council voted on Monday.";
   vocab_entry "rebuild" "sang mai" "to rebuild the old river bridge";
   vocab_entry "river" "maenam" "the old river bridge";
   vocab_entry "bridge" "saphan" "the old river bridge"].

Definition five_entries_one_blank : json := JArray five_items_one_blank.

(** One object with three properties that the schema does not declare. *)
Definition foreign_entries : json :=
  JArray [JObject [("a", JString "x"); ("b", JString "y"); ("c", JString "z")]].

Definition known_payloads : list json :=
  [five_entries; five_entries_one_blank; foreign_entries; JArray []].

(** The service answers every call with the given text. *)
Definition world_answering (t : str) : World :=
  mkWorld (fun _ => no_page) (fun _ => Returned sample_client)
          (fun _ _ _ => answer t)
          (decode_among known_payloads) (fun _ => Raised value_error).

(** One object that lacks two of the three properties. *)
Definition one_key_entries : json :=
  JArray [JObject [("English_Word", JString "council")]].

Definition world_answering_one_key : World :=
  mkWorld (fun _ => no_page) (fun _ => Returned sample_client)
          (fun _ _ _ => answer (json_dumps one_key_entries))
          (decode_among [one_key_entries]) (fun _ => Raised value_error).

(** Every stage succeeds: the service answers with the clean text, then
    the summary, then the five entries. *)
Definition world_complete : World :=
  scripted_world (Returned sample_page) (Returned sample_client)
    [answer sample_article; answer "sarup khao"; answer (json_dumps five_entries)]
    (decode_among known_payloads).

Definition five_rows : list (list (option json)) :=
  [[Some (JString "council"); Some (JString "sapha");
    Some (JString "The council voted on Monday.")];
   [Some (JString "voted"); Some (JString "long khanaen");
    Some (JString "The council voted on Monday.")];
   [Some (JString "rebuild"); Some (JString "sang mai");
    Some (JString "to rebuild the old river bridge")];
   [Some (JString "river"); Some (JString "maenam");
    Some (JString "the old river bridge")];
   [Some (JString "bridge"); Some (JString "saphan");
    Some (JString "the old river bridge")]].

(** ** Measures of a trace *)

(** Seconds spent in backoff waits. *)
Definition total_wait (evs : list Event) : Z := fold_right Z.add 0 (sleeps evs).

(** A call that leaves the process: the page fetch, the construction of the
    client, a generation call. *)
Definition is_external (e : Event) : bool :=
  match e with
  | EvHttpGet _ => true
  | EvClient _ => true
  | EvGenerate _ _ => true
  | _ => false
  end.

Definition is_error (e : Event) : bool :=
  match e with
  | st_error _ => true
  | _ => false
  end.

(** A page with 27 characters of paragraph text and no body. *)
Definition bodiless_page : Soup := mkSoup ["  Breaking news  "; ""; "Ten words."] None.

Definition world_bodiless : World :=
  scripted_world (Returned bodiless_page) (Returned sample_client) [] no_json.

(** The request for the page fails. *)
Definition world_offline : World :=
  scripted_world no_page (Returned sample_client) [answer sample_article] no_json.

Definition is_stop (e : Event) : bool :=
  match e with
  | st_stop => true
  | _ => false
  end.

(** [st.stop()] occurs, if at all, as the last event. *)
Fixpoint stop_only_last (evs : list Event) : bool :=
  match evs with
  | [] => true
  | [_] => true
  | e :: rest => negb (is_stop e) && stop_only_last rest
  end.

(** Whether the widget values pass the three checks of the input
    validation (newsapp.py:153-163). *)
Definition valid_inputs (inp : Inputs) : bool :=
  truthy (news_url inp) && truthy (gemini_api_key inp)
  && (startswith (news_url inp) "http://" || startswith (news_url inp) "https://").

(** A trace with at most [c] generation calls and at most [c] seconds of
    backoff. *)
Definition within_budget (evs : list Event) (c : nat) : Prop :=
  (ncalls evs <= c)%nat /\ 0 <= total_wait evs <= Z.of_nat c.

(** A generation call goes through the client built from the key of the
    run and names the model of the scripts. *)
Definition uses_run_client (w : World) (inp : Inputs) (e : Event) : Prop :=
  match e with
  | EvGenerate c r =>
      genai_Client w (gemini_api_key inp) = Returned c /\ model r = MODEL_NAME
  | _ => True
  end.

(** The cleaning call is answered with blanks only. *)
Definition world_blank_cleaning : World :=
  scripted_world (Returned sample_page) (Returned sample_client)
    [answer "   "] no_json.

(** An event that is neither a generation call nor a wait. *)
Definition is_quiet (e : Event) : bool :=
  match e with
  | EvGenerate _ _ => false
  | EvSleep _ => false
  | _ => true
  end.

(** [stage_calls w inp k evs]: the trace [evs] is made of quiet events and
    of [k] retried calls, each with the default number of attempts and
    through the client that [genai.Client] returned for the key of the run. *)
Inductive stage_calls (w : World) (inp : Inputs) : nat -> list Event -> Prop :=
| sc_nil : stage_calls w inp 0 []
| sc_quiet (e : Event) (rest : list Event) (k : nat) :
    is_quiet e = true ->
    stage_calls w inp k rest ->
    stage_calls w inp k (e :: rest)
| sc_call (client : Client) (contents : list Prompt)
    (config : option GenerateContentConfig) (n : nat) (rest : list Event)
    (k : nat) :
    genai_Client w (gemini_api_key inp) = Returned client ->
    stage_calls w inp k rest ->
    stage_calls w inp (S k)
      (snd (make_gemini_call_with_retry w client contents config
              default_max_retries n) ++ rest).

(** The service answers every call with the text of one payload, which the
    decoder knows. *)
Definition world_with_payload (payload : json) : World :=
  mkWorld (fun _ => no_page) (fun _ => Returned sample_client)
          (fun _ _ _ => answer (json_dumps payload))
          (decode_among [payload]) (fun _ => Raised value_error).

(** One entry in the shape of the schema. *)
Definition one_entry : list json :=
  [vocab_entry "council" "sapha" "The council voted on Monday."].


(** * Properties *)

(** ** Sample runs *)

Example strip_both_ends :
  strip (String.append "  a b " newline) = "a b".
Proof. reflexivity. Qed.

Example retry_trace_two_failures :
  snd (make_gemini_call_with_retry world_recovers sample_client
         [summary_prompt "news"] None default_max_retries 0%nat)
  = [EvGenerate sample_client (mkRequest MODEL_NAME [summary_prompt "news"] None);
     st_warning (MsgApiRetry api_unavailable 1); EvSleep 1;
     EvGenerate sample_client (mkRequest MODEL_NAME [summary_prompt "news"] None);
     st_warning (MsgApiRetry api_unavailable 2); EvSleep 2;
     EvGenerate sample_client (mkRequest MODEL_NAME [summary_prompt "news"] None)].
Proof. reflexivity. Qed.

Example rejected_inputs :
  Newsapp.main world_complete (mkInputs "" "key" true)
    = [st_info MsgEnterUrl; st_stop]
  /\ Newsapp.main world_complete (mkInputs sample_url "" true)
     = [st_error MsgEnterKey; st_stop]
  /\ Newsapp2.main world_complete (mkInputs "ftp://example.com" "key" true)
     = [st_error MsgBadUrl; st_stop]
  /\ Newsapp2.main world_complete (mkInputs sample_url "key" false) = [].
Proof. repeat split. Qed.

Example local_scrape_complete_run :
  Newsapp.main world_complete sample_inputs
  = [EvHttpGet sample_url; st_success MsgFetched; EvClient "key";
     st_subheader HeadCleaning;
     EvGenerate sample_client (clean_request sample_article);
     st_success MsgCleaned;
     st_header HeadCleanText; st_text_area sample_article;
     st_header HeadSummary;
     EvGenerate sample_client (summary_request sample_article);
     st_markdown "sarup khao";
     st_header HeadVocabulary;
     EvGenerate sample_client (vocab_request sample_article);
     st_dataframe (mkFrame display_columns five_rows)].
Proof. reflexivity. Qed.

Example delegated_complete_run :
  Newsapp2.main world_complete sample_inputs
  = [EvClient "key"; st_subheader HeadFetchAndClean;
     EvGenerate sample_client (fetch_request sample_url);
     st_success MsgFetchedAndCleaned;
     st_header HeadCleanText; st_text_area sample_article;
     st_header HeadSummary;
     EvGenerate sample_client (summary_request sample_article);
     st_markdown "sarup khao";
     st_header HeadVocabulary;
     EvGenerate sample_client (vocab_request sample_article);
     st_dataframe (mkFrame display_columns five_rows)].
Proof. reflexivity. Qed.

(** ** The script monad *)

Lemma ncalls_app (a b : list Event) : ncalls (a ++ b) = (ncalls a + ncalls b)%nat.
Proof. unfold ncalls. now rewrite filter_app, length_app. Qed.

Lemma sleeps_app (a b : list Event) : sleeps (a ++ b) = sleeps a ++ sleeps b.
Proof.
  induction a as [|e a IH]; simpl; [reflexivity|].
  destruct e; simpl; now rewrite IH.
Qed.

(** ** Retry controller *)

Section Retry.

Variables (w : World) (client : Client) (request : Request) (max_retries : Z).

(** One turn of the loop, with the events written out. *)
Lemma retry_loop_cons (attempt : Z) (rest : list Z) (n : nat) :
  retry_loop w client request max_retries (attempt :: rest) n =
  match generate_content w client n request with
  | Returned response => (Some response, [EvGenerate client request])
  | Raised e =>
      if isinstance e APIError then
        if attempt <? max_retries - 1 then
          let (r, evs) := retry_loop w client request max_retries rest (S n) in
          (r, EvGenerate client request
                :: st_warning (MsgApiRetry e (2 ^ attempt))
                :: EvSleep (2 ^ attempt) :: evs)
        else
          (None, [EvGenerate client request;
                  st_error (MsgApiExhausted max_retries e)])
      else
        (None, [EvGenerate client request; st_error (MsgApiUnexpected e)])
  end.
Proof.
  cbn [retry_loop]. unfold bind, call_generate, emit, ret.
  destruct (generate_content w client n request) as [response|e]; [reflexivity|].
  destruct (isinstance e APIError); [|reflexivity].
  destruct (attempt <? max_retries - 1); [|reflexivity].
  cbn [ncalls filter is_generate List.length app].
  replace (n + 1 + 0 + 0)%nat with (S n) by lia.
  now destruct (retry_loop w client request max_retries rest (S n)).
Qed.

Lemma transient_failures_S (n k : nat) :
  transient_failures w client request n (S k) ->
  (exists e, generate_content w client n request = Raised e
             /\ isinstance e APIError = true)
  /\ transient_failures w client request (S n) k.
Proof.
  intros H. split.
  - destruct (H 0%nat ltac:(lia)) as (e & He & Ht).
    rewrite Nat.add_0_r in He. eauto.
  - intros j Hj. destruct (H (S j) ltac:(lia)) as (e & He & Ht).
    replace (n + S j)%nat with (S n + j)%nat in He by lia. eauto.
Qed.

(** [k] transient failures from attempt [i] on, then a success. *)
Lemma retry_loop_recovers (k : nat) :
  forall (i n : nat) (rest : list Z) (response : Response),
    Z.of_nat (i + k) < max_retries ->
    transient_failures w client request n k ->
    generate_content w client (n + k) request = Returned response ->
    let run := retry_loop w client request max_retries
                 (map Z.of_nat (seq i (S k)) ++ rest) n in
    fst run = Some response
    /\ sleeps (snd run) = map (fun j => 2 ^ Z.of_nat j) (seq i k)
    /\ ncalls (snd run) = S k.
Proof.
  induction k as [|k IH]; intros i n rest response Hlt Hfail Hok run; subst run.
  - cbn [seq map app]. rewrite retry_loop_cons.
    rewrite Nat.add_0_r in Hok. rewrite Hok. now cbn.
  - apply transient_failures_S in Hfail as [(e & He & Ht) Hfail].
    change (seq i (S (S k))) with (i :: seq (S i) (S k)).
    cbn [map app]. rewrite retry_loop_cons, He, Ht.
    replace (Z.of_nat i <? max_retries - 1) with true
      by (symmetry; apply Z.ltb_lt; lia).
    specialize (IH (S i) (S n) rest response).
    replace (n + S k)%nat with (S n + k)%nat in Hok by lia.
    specialize (IH ltac:(lia) Hfail Hok). cbv zeta in IH.
    destruct (retry_loop w client request max_retries
                (map Z.of_nat (seq (S i) (S k)) ++ rest) (S n)) as [r evs].
    cbn [fst snd] in *. destruct IH as (Hr & Hs & Hc).
    repeat split.
    + exact Hr.
    + cbn [sleeps seq map]. now rewrite Hs.
    + change (ncalls evs = S k) in Hc. unfold ncalls in *. cbn. now rewrite Hc.
Qed.

(** Transient failures on every attempt left. *)
Lemma retry_loop_exhausts (len : nat) :
  forall (i n : nat),
    Z.of_nat (i + len) = max_retries ->
    transient_failures w client request n len ->
    let run := retry_loop w client request max_retries
                 (map Z.of_nat (seq i len)) n in
    fst run = None
    /\ ncalls (snd run) = len
    /\ sleeps (snd run) = map (fun j => 2 ^ Z.of_nat j) (seq i (len - 1)).
Proof.
  induction len as [|len IH]; intros i n Hmax Hfail run; subst run.
  - now cbn.
  - apply transient_failures_S in Hfail as [(e & He & Ht) Hfail].
    cbn [seq map]. rewrite retry_loop_cons, He, Ht.
    destruct len as [|len].
    + replace (Z.of_nat i <? max_retries - 1) with false
        by (symmetry; apply Z.ltb_ge; lia).
      now cbn.
    + replace (Z.of_nat i <? max_retries - 1) with true
        by (symmetry; apply Z.ltb_lt; lia).
      specialize (IH (S i) (S n) ltac:(lia) Hfail). cbv zeta in IH.
      destruct (retry_loop w client request max_retries
                  (map Z.of_nat (seq (S i) (S len))) (S n)) as [r evs].
      cbn [fst snd] in *. destruct IH as (Hr & Hc & Hs).
      repeat split.
      * exact Hr.
      * unfold ncalls in *. cbn. now rewrite Hc.
      * cbn [sleeps]. rewrite Hs.
        replace (S len - 1)%nat with len by lia.
        replace (S (S len) - 1)%nat with (S len) by lia.
        reflexivity.
Qed.

(** [k] transient failures from attempt [i] on, then another error. *)
Lemma retry_loop_abandons (k : nat) :
  forall (i n : nat) (rest : list Z) (e : PyExc),
    Z.of_nat (i + k) < max_retries ->
    transient_failures w client request n k ->
    generate_content w client (n + k) request = Raised e ->
    isinstance e APIError = false ->
    let run := retry_loop w client request max_retries
                 (map Z.of_nat (seq i (S k)) ++ rest) n in
    fst run = None
    /\ sleeps (snd run) = map (fun j => 2 ^ Z.of_nat j) (seq i k)
    /\ ncalls (snd run) = S k
    /\ exists before,
         snd run = before ++ [EvGenerate client request;
                              st_error (MsgApiUnexpected e)].
Proof.
  induction k as [|k IH]; intros i n rest e Hlt Hfail Hraise Hcls run; subst run.
  - cbn [seq map app]. rewrite retry_loop_cons.
    rewrite Nat.add_0_r in Hraise. rewrite Hraise, Hcls.
    repeat split. now exists [].
  - apply transient_failures_S in Hfail as [(e0 & He & Ht) Hfail].
    change (seq i (S (S k))) with (i :: seq (S i) (S k)).
    cbn [map app]. rewrite retry_loop_cons, He, Ht.
    replace (Z.of_nat i <? max_retries - 1) with true
      by (symmetry; apply Z.ltb_lt; lia).
    specialize (IH (S i) (S n) rest e).
    replace (n + S k)%nat with (S n + k)%nat in Hraise by lia.
    specialize (IH ltac:(lia) Hfail Hraise Hcls). cbv zeta in IH.
    destruct (retry_loop w client request max_retries
                (map Z.of_nat (seq (S i) (S k)) ++ rest) (S n)) as [r evs].
    cbn [fst snd] in *. destruct IH as (Hr & Hs & Hc & before & Hb).
    repeat split.
    + exact Hr.
    + cbn [sleeps seq map]. now rewrite Hs.
    + unfold ncalls in *. cbn. now rewrite Hc.
    + eexists (_ :: _ :: _ :: before). rewrite Hb. reflexivity.
Qed.

End Retry.

Lemma py_range_seq (max_retries : Z) :
  py_range max_retries = map Z.of_nat (seq 0 (Z.to_nat max_retries)).
Proof. reflexivity. Qed.

(** C1. A call that fails with a transient API error exactly [k] times,
    [k < max_retries], and then succeeds: the controller returns the
    success response, after exactly [k + 1] attempts and exactly [k] backoff
    waits of 1, 2, 4, ..., 2^(k-1) seconds, in that order. *)
Theorem retry_recovers_after_transient_failures :
  forall (w : World) (client : Client) (contents : list Prompt)
         (config : option GenerateContentConfig) (max_retries : Z)
         (n k : nat) (response : Response),
    Z.of_nat k < max_retries ->
    transient_failures w client (mkRequest MODEL_NAME contents config) n k ->
    generate_content w client (n + k) (mkRequest MODEL_NAME contents config)
      = Returned response ->
    let run := make_gemini_call_with_retry w client contents config max_retries n in
    fst run = Some response
    /\ sleeps (snd run) = backoff_waits k
    /\ ncalls (snd run) = S k.
Proof.
  intros w client contents config max_retries n k response Hk Hfail Hok.
  unfold make_gemini_call_with_retry. rewrite py_range_seq.
  replace (Z.to_nat max_retries) with (S k + (Z.to_nat max_retries - S k))%nat by lia.
  rewrite seq_app, map_app.
  apply retry_loop_recovers; [lia | assumption | assumption].
Qed.

Lemma retry_recovers_after_transient_failures_witness :
  fst (make_gemini_call_with_retry world_recovers sample_client
         [summary_prompt "news"] None default_max_retries 0%nat)
    = Some (mkResponse (Some "ok"))
  /\ sleeps (snd (make_gemini_call_with_retry world_recovers sample_client
                    [summary_prompt "news"] None default_max_retries 0%nat))
     = [1; 2]
  /\ ncalls (snd (make_gemini_call_with_retry world_recovers sample_client
                    [summary_prompt "news"] None default_max_retries 0%nat))
     = 3%nat.
Proof.
  apply (retry_recovers_after_transient_failures world_recovers sample_client
           [summary_prompt "news"] None default_max_retries 0%nat 2%nat
           (mkResponse (Some "ok"))).
  - reflexivity.
  - intros j Hj. exists api_unavailable.
    destruct j as [|[|j]]; [split; reflexivity | split; reflexivity | lia].
  - reflexivity.
Defined.

(** C2. A call that fails with a transient API error on every attempt: the
    controller makes exactly [max_retries] attempts and returns [None]; it
    returns, so nothing is raised to the caller.  It waits after every
    attempt but the last. *)
Theorem retry_gives_up_after_max_retries :
  forall (w : World) (client : Client) (contents : list Prompt)
         (config : option GenerateContentConfig) (max_retries : Z) (n : nat),
    0 <= max_retries ->
    transient_failures w client (mkRequest MODEL_NAME contents config) n
      (Z.to_nat max_retries) ->
    let run := make_gemini_call_with_retry w client contents config max_retries n in
    fst run = None
    /\ Z.of_nat (ncalls (snd run)) = max_retries
    /\ sleeps (snd run) = backoff_waits (Z.to_nat max_retries - 1).
Proof.
  intros w client contents config max_retries n Hpos Hfail.
  unfold make_gemini_call_with_retry. rewrite py_range_seq.
  destruct (retry_loop_exhausts w client (mkRequest MODEL_NAME contents config)
              max_retries (Z.to_nat max_retries) 0 n ltac:(lia) Hfail)
    as (Hr & Hc & Hs).
  cbv zeta. rewrite Hr, Hc, Hs. repeat split. lia.
Qed.

Lemma retry_gives_up_after_max_retries_witness :
  fst (make_gemini_call_with_retry world_unavailable sample_client
         [summary_prompt "news"] None default_max_retries 0%nat)
    = None
  /\ Z.of_nat (ncalls (snd (make_gemini_call_with_retry world_unavailable
                              sample_client [summary_prompt "news"] None
                              default_max_retries 0%nat)))
     = 3
  /\ sleeps (snd (make_gemini_call_with_retry world_unavailable sample_client
                    [summary_prompt "news"] None default_max_retries 0%nat))
     = [1; 2].
Proof.
  apply (retry_gives_up_after_max_retries world_unavailable sample_client
           [summary_prompt "news"] None default_max_retries 0%nat).
  - discriminate.
  - intros j Hj. exists api_unavailable.
    destruct j as [|[|[|j]]]; split; reflexivity.
Defined.

(** C3. A call that fails with an error that is not an [APIError]: the
    controller abandons at that attempt and returns [None]; it returns, so
    nothing is raised to the caller.  With [k] earlier transient failures
    the run has [k + 1] attempts, the failing one last, and only the [k]
    waits that preceded it; when the first attempt fails so ([k = 0]) there
    is one attempt and no wait. *)
Theorem retry_abandons_on_other_error :
  forall (w : World) (client : Client) (contents : list Prompt)
         (config : option GenerateContentConfig) (max_retries : Z)
         (n k : nat) (e : PyExc),
    Z.of_nat k < max_retries ->
    transient_failures w client (mkRequest MODEL_NAME contents config) n k ->
    generate_content w client (n + k) (mkRequest MODEL_NAME contents config)
      = Raised e ->
    isinstance e APIError = false ->
    let run := make_gemini_call_with_retry w client contents config max_retries n in
    fst run = None
    /\ sleeps (snd run) = backoff_waits k
    /\ ncalls (snd run) = S k
    /\ exists before,
         snd run = before ++ [EvGenerate client (mkRequest MODEL_NAME contents config);
                              st_error (MsgApiUnexpected e)].
Proof.
  intros w client contents config max_retries n k e Hk Hfail Hraise Hcls.
  unfold make_gemini_call_with_retry. rewrite py_range_seq.
  replace (Z.to_nat max_retries) with (S k + (Z.to_nat max_retries - S k))%nat by lia.
  rewrite seq_app, map_app.
  apply retry_loop_abandons; [lia | assumption | assumption | assumption].
Qed.

Lemma retry_abandons_on_other_error_witness :
  fst (make_gemini_call_with_retry world_reset sample_client
         [summary_prompt "news"] None default_max_retries 0%nat)
    = None
  /\ sleeps (snd (make_gemini_call_with_retry world_reset sample_client
                    [summary_prompt "news"] None default_max_retries 0%nat))
     = []
  /\ ncalls (snd (make_gemini_call_with_retry world_reset sample_client
                    [summary_prompt "news"] None default_max_retries 0%nat))
     = 1%nat
  /\ exists before,
       snd (make_gemini_call_with_retry world_reset sample_client
              [summary_prompt "news"] None default_max_retries 0%nat)
       = before
         ++ [EvGenerate sample_client
               (mkRequest MODEL_NAME [summary_prompt "news"] None);
             st_error (MsgApiUnexpected connection_reset)].
Proof.
  apply (retry_abandons_on_other_error world_reset sample_client
           [summary_prompt "news"] None default_max_retries 0%nat 0%nat
           connection_reset).
  - reflexivity.
  - intros j Hj. lia.
  - reflexivity.
  - reflexivity.
Defined.

(** ** The fetcher of the local-scrape variant *)

Lemma length_append (a b : str) :
  String.length (String.append a b) = (String.length a + String.length b)%nat.
Proof. induction a as [|c a IH]; simpl; [reflexivity | now rewrite IH]. Qed.

Lemma length_substring_prefix (m : nat) :
  forall s : str, (m <= String.length s)%nat ->
    String.length (substring 0 m s) = m.
Proof.
  induction m as [|m IH]; intros s Hm.
  - now destruct s.
  - destruct s as [|c s]; simpl in *; [lia|]. rewrite IH; lia.
Qed.

Lemma len_slice_to (n : Z) (s : str) :
  0 <= n <= len s -> len (slice_to n s) = n.
Proof.
  unfold len, slice_to. intros Hn. rewrite length_substring_prefix; lia.
Qed.

Lemma truthy_len (s : str) : 0 < len s -> truthy s = true.
Proof. destruct s; [cbn; lia | reflexivity]. Qed.

(** C10. When the text extracted from the page is longer than the cap of
    15000 characters, [get_article_text] returns its first 15000 characters
    followed by the marker "...": a text of exactly 15003 characters, three
    more than the cap. *)
Theorem get_article_text_truncates_to_cap_plus_marker :
  forall (w : World) (url : str) (soup : Soup) (article_text : str),
    requests_get w url = Returned soup ->
    Newsapp.extracted_text soup = Returned article_text ->
    15000 < len article_text ->
    let raw_text := String.append (slice_to 15000 article_text) "..." in
    Newsapp.get_article_text w url
      = (Text raw_text, [EvHttpGet url; st_warning (MsgTruncated 15000)])
    /\ len (slice_to 15000 article_text) = 15000
    /\ len raw_text = 15003.
Proof.
  intros w url soup article_text Hget Htext Hlong raw_text. subst raw_text.
  unfold Newsapp.get_article_text. rewrite Hget, Htext.
  rewrite truthy_len by lia. cbn [negb].
  unfold Newsapp.max_length.
  replace (len article_text >? 15000) with true
    by (symmetry; apply Z.gtb_lt; lia).
  assert (Hslice : len (slice_to 15000 article_text) = 15000)
    by (apply len_slice_to; lia).
  repeat split; [exact Hslice|].
  unfold len in *. rewrite length_append. cbn [String.length]. lia.
Qed.

Lemma get_article_text_truncates_to_cap_plus_marker_witness :
  Newsapp.get_article_text world_long_page sample_url
    = (Text (String.append (slice_to 15000 long_text) "..."),
       [EvHttpGet sample_url; st_warning (MsgTruncated 15000)])
  /\ len (slice_to 15000 long_text) = 15000
  /\ len (String.append (slice_to 15000 long_text) "...") = 15003.
Proof.
  apply (get_article_text_truncates_to_cap_plus_marker world_long_page
           sample_url long_page long_text).
  - reflexivity.
  - vm_compute. reflexivity.
  - vm_compute. reflexivity.
Defined.

(** ** Traces of the stages *)

Arguments make_gemini_call_with_retry : simpl never.

Lemma bind_fst {A B} (m : Script A) (f : A -> Script B) (n : nat) :
  fst (bind m f n) = fst (f (fst (m n)) (n + ncalls (snd (m n)))%nat).
Proof.
  unfold bind. destruct (m n) as [a evs1]. cbn [fst snd].
  now destruct (f a (n + ncalls evs1)%nat).
Qed.

Lemma bind_snd {A B} (m : Script A) (f : A -> Script B) (n : nat) :
  snd (bind m f n)
  = snd (m n) ++ snd (f (fst (m n)) (n + ncalls (snd (m n)))%nat).
Proof.
  unfold bind. destruct (m n) as [a evs1]. cbn [fst snd].
  now destruct (f a (n + ncalls evs1)%nat).
Qed.

Lemma retry_loop_events (w : World) (client : Client) (request : Request)
    (max_retries : Z) (attempts : list Z) :
  forall n, Forall (retry_event client request)
              (snd (retry_loop w client request max_retries attempts n)).
Proof.
  induction attempts as [|attempt rest IH]; intros n.
  - constructor.
  - rewrite retry_loop_cons.
    destruct (generate_content w client n request) as [response|e].
    + repeat constructor.
    + destruct (isinstance e APIError).
      * destruct (attempt <? max_retries - 1).
        -- specialize (IH (S n)).
           destruct (retry_loop w client request max_retries rest (S n)) as [r evs].
           cbn [snd] in *. repeat constructor; assumption.
        -- repeat constructor.
      * repeat constructor.
Qed.

Lemma retry_events (w : World) (client : Client) (contents : list Prompt)
    (config : option GenerateContentConfig) (max_retries : Z) (n : nat) :
  Forall (retry_event client (mkRequest MODEL_NAME contents config))
    (snd (make_gemini_call_with_retry w client contents config max_retries n)).
Proof. apply retry_loop_events. Qed.

(** With the default of three attempts the controller issues the call at
    least once. *)
Lemma retry_first_call (w : World) (client : Client) (contents : list Prompt)
    (config : option GenerateContentConfig) (n : nat) :
  exists rest,
    snd (make_gemini_call_with_retry w client contents config default_max_retries n)
    = EvGenerate client (mkRequest MODEL_NAME contents config) :: rest.
Proof.
  unfold make_gemini_call_with_retry.
  change (py_range default_max_retries) with [0; 1; 2].
  rewrite retry_loop_cons.
  destruct (generate_content w client n _) as [response|e]; [now eexists|].
  destruct (isinstance e APIError); [|now eexists].
  destruct (0 <? default_max_retries - 1); [|now eexists].
  destruct (retry_loop w client _ default_max_retries [1; 2] (S n)) as [r evs].
  now eexists.
Qed.

Lemma retry_event_not_stop (client : Client) (request : Request) (evs : list Event) :
  Forall (retry_event client request) evs -> ~ In st_stop evs.
Proof.
  intros H Hin. rewrite Forall_forall in H. exact (H _ Hin).
Qed.

Lemma retry_event_not_dataframe (client : Client) (request : Request)
    (evs : list Event) (df : DataFrame) :
  Forall (retry_event client request) evs -> ~ In (st_dataframe df) evs.
Proof.
  intros H Hin. rewrite Forall_forall in H. exact (H _ Hin).
Qed.

Lemma retry_event_not_text (client : Client) (request : Request)
    (evs : list Event) (t : str) :
  Forall (retry_event client request) evs -> ~ In (st_text t) evs.
Proof.
  intros H Hin. rewrite Forall_forall in H. exact (H _ Hin).
Qed.

Lemma summary_stage_trace (w : World) (client : Client) (clean : str) (n : nat) :
  let call := make_gemini_call_with_retry w client [summary_prompt clean]
                (Some summary_config) default_max_retries n in
  snd (summary_stage w client clean n)
  = st_header HeadSummary :: snd call ++ [summary_outcome (fst call)].
Proof.
  cbv zeta. unfold summary_stage. rewrite !bind_snd.
  cbn [emit snd fst ncalls filter is_generate List.length app].
  rewrite Nat.add_0_r. unfold summary_outcome.
  now destruct (response_text _).
Qed.

Lemma show_table_events (w : World) (t : str) (n : nat) :
  snd (show_table w t n) = snd (show_table w t 0%nat).
Proof.
  unfold show_table. destruct (build_table w t) as [df|e]; [reflexivity|].
  now destruct (isinstance e JSONDecodeError).
Qed.

Lemma vocab_stage_trace (w : World) (client : Client) (clean : str) (n : nat) :
  let call := make_gemini_call_with_retry w client [vocab_prompt clean]
                (Some vocab_config) default_max_retries n in
  snd (vocab_stage w client clean n)
  = st_header HeadVocabulary :: snd call ++ vocab_outcome w (fst call).
Proof.
  cbv zeta. unfold vocab_stage. rewrite !bind_snd.
  cbn [emit snd fst ncalls filter is_generate List.length app].
  rewrite Nat.add_0_r. unfold vocab_outcome.
  destruct (response_text _); [|reflexivity].
  now rewrite show_table_events.
Qed.

Lemma vocab_outcome_not_stop (w : World) (response : option Response) :
  ~ In st_stop (vocab_outcome w response).
Proof.
  unfold vocab_outcome, show_table.
  destruct (response_text response) as [t|]; [|cbn; intuition discriminate].
  destruct (build_table w t) as [df|e]; [cbn; intuition discriminate|].
  destruct (isinstance e JSONDecodeError); cbn; intuition discriminate.
Qed.

Lemma report_stages_trace (w : World) (client : Client) (clean : str) (n : nat) :
  snd (report_stages w client clean n)
  = [st_header HeadCleanText; st_text_area clean]
    ++ snd (summary_stage w client clean n)
    ++ snd (vocab_stage w client clean
              (n + ncalls (snd (summary_stage w client clean n)))%nat).
Proof.
  unfold report_stages, show_clean_text. rewrite !bind_snd.
  cbn [emit snd fst ncalls filter is_generate List.length app].
  now rewrite !Nat.add_0_r.
Qed.

(** ** Traces of the two scripts *)

Lemma get_article_text_ncalls (w : World) (url : str) :
  ncalls (snd (Newsapp.get_article_text w url)) = 0%nat.
Proof.
  unfold Newsapp.get_article_text.
  destruct (requests_get w url) as [soup|e]; [|reflexivity].
  destruct (Newsapp.extracted_text soup) as [t|e]; [|reflexivity].
  destruct (negb (truthy t)); [reflexivity|].
  now destruct (len t >? Newsapp.max_length).
Qed.

Lemma get_article_text_not_stop (w : World) (url : str) :
  ~ In st_stop (snd (Newsapp.get_article_text w url)).
Proof.
  unfold Newsapp.get_article_text.
  destruct (requests_get w url) as [soup|e]; [|cbn; intuition discriminate].
  destruct (Newsapp.extracted_text soup) as [t|e]; [|cbn; intuition discriminate].
  destruct (negb (truthy t)); [cbn; intuition discriminate|].
  destruct (len t >? Newsapp.max_length); cbn; intuition discriminate.
Qed.

Lemma main_of_trace (v : Variant) (w : World) (inp : Inputs)
    (client : Client) (clean : str) (before : list Event) :
  process_button inp = true ->
  prepare_of v w inp 0%nat = (Some (client, clean), before) ->
  main_of v w inp
  = before ++ snd (report_stages w client clean (ncalls before)).
Proof.
  intros Hb Hp.
  destruct v; cbn [main_of prepare_of] in *;
    [unfold Newsapp.main, Newsapp.pipeline
    |unfold Newsapp2.main, Newsapp2.pipeline];
    rewrite Hb, bind_snd, Hp; reflexivity.
Qed.

Lemma clean_stage_trace (w : World) (client : Client) (noisy : str) (n : nat) :
  let r := Newsapp.extract_main_content_with_gemini w client noisy n in
  Newsapp.clean_stage w client noisy n
  = match fst r with
    | Error m =>
        (noisy, st_subheader HeadCleaning :: snd r
                  ++ [st_error m; st_warning MsgFallbackToNoisy])
    | Text clean =>
        (clean, st_subheader HeadCleaning :: snd r ++ [st_success MsgCleaned])
    end.
Proof.
  cbv zeta. unfold Newsapp.clean_stage, bind, emit, ret.
  cbn [ncalls filter is_generate List.length app].
  rewrite Nat.add_0_r.
  destruct (Newsapp.extract_main_content_with_gemini w client noisy n) as [r evs].
  cbn [fst snd]. destruct r; cbn; now rewrite ?app_nil_r.
Qed.

Lemma extract_main_content_trace (w : World) (client : Client) (noisy : str)
    (n : nat) :
  snd (Newsapp.extract_main_content_with_gemini w client noisy n)
  = snd (make_gemini_call_with_retry w client [extraction_prompt noisy]
           (Some Newsapp.extraction_config) default_max_retries n).
Proof.
  unfold Newsapp.extract_main_content_with_gemini. rewrite bind_snd.
  destruct (response_text _); cbn; now rewrite app_nil_r.
Qed.

Lemma extract_article_content_trace (w : World) (client : Client) (url : str)
    (n : nat) :
  snd (Newsapp2.extract_article_content w client url n)
  = st_subheader HeadFetchAndClean
    :: snd (make_gemini_call_with_retry w client [url_extraction_prompt url]
              (Some Newsapp2.extraction_config) default_max_retries n).
Proof.
  unfold Newsapp2.extract_article_content. rewrite !bind_snd.
  cbn [emit snd fst ncalls filter is_generate List.length app].
  rewrite Nat.add_0_r.
  destruct (response_text _); cbn; now rewrite app_nil_r.
Qed.

(** The local-scrape script once the fetched text is accepted and the
    client is built. *)
Lemma newsapp_prepare_clean (w : World) (inp : Inputs) (noisy : str)
    (fetched : list Event) (client : Client) :
  input_validation inp = None ->
  Newsapp.get_article_text w (news_url inp) = (Text noisy, fetched) ->
  50 <= len noisy ->
  genai_Client w (gemini_api_key inp) = Returned client ->
  Newsapp.prepare w inp 0%nat
  = (Some (client, fst (Newsapp.clean_stage w client noisy 0%nat)),
     fetched ++ [st_success MsgFetched; EvClient (gemini_api_key inp)]
       ++ snd (Newsapp.clean_stage w client noisy 0%nat)).
Proof.
  intros Hv Hget Hlen Hclient.
  pose proof (get_article_text_ncalls w (news_url inp)) as Hn.
  rewrite Hget in Hn. cbn [snd] in Hn.
  unfold Newsapp.prepare. rewrite Hv. unfold bind at 1. rewrite Hget.
  rewrite truthy_len by lia.
  replace (len noisy <? 50) with false by (symmetry; apply Z.ltb_ge; lia).
  cbn [negb orb]. unfold bind, emit, ret. rewrite Hclient, Hn.
  cbn [ncalls filter is_generate List.length app Nat.add].
  destruct (Newsapp.clean_stage w client noisy 0%nat) as [clean evs].
  cbn [fst snd]. now rewrite app_nil_r.
Qed.

Lemma not_in_app {A} (x : A) (a b : list A) :
  ~ In x a -> ~ In x b -> ~ In x (a ++ b).
Proof. intros Ha Hb Hin. apply in_app_or in Hin. tauto. Qed.

Lemma clean_stage_not_stop (w : World) (client : Client) (noisy : str) (n : nat) :
  ~ In st_stop (snd (Newsapp.clean_stage w client noisy n)).
Proof.
  rewrite clean_stage_trace. cbv zeta.
  pose proof (retry_events w client [extraction_prompt noisy]
                (Some Newsapp.extraction_config) default_max_retries n) as Hr.
  apply retry_event_not_stop in Hr.
  rewrite <- extract_main_content_trace in Hr.
  destruct (fst (Newsapp.extract_main_content_with_gemini w client noisy n));
    cbn [snd]; intros [Hin|Hin]; try discriminate;
    apply in_app_or in Hin as [Hin|Hin]; try tauto;
    cbn in Hin; intuition discriminate.
Qed.

(** A run that reaches the clean text has not stopped. *)
Lemma prepare_of_not_stop (v : Variant) (w : World) (inp : Inputs)
    (client : Client) (clean : str) (before : list Event) :
  prepare_of v w inp 0%nat = (Some (client, clean), before) ->
  ~ In st_stop before.
Proof.
  destruct v; cbn [prepare_of].
  - unfold Newsapp.prepare.
    destruct (input_validation inp); [discriminate|].
    unfold bind at 1.
    pose proof (get_article_text_not_stop w (news_url inp)) as Hf.
    destruct (Newsapp.get_article_text w (news_url inp)) as [[noisy|m] fetched];
      [|cbn; discriminate].
    cbn [snd] in Hf.
    destruct (negb (truthy noisy) || (len noisy <? 50)); [cbn; discriminate|].
    unfold bind, emit, ret.
    destruct (genai_Client w (gemini_api_key inp)) as [c|e]; [|cbn; discriminate].
    pose proof (clean_stage_not_stop w c noisy
                  (0 + ncalls fetched + ncalls [st_success MsgFetched]
                   + ncalls [EvClient (gemini_api_key inp)])%nat) as Hc.
    destruct (Newsapp.clean_stage w c noisy _) as [t evs]. cbn [snd] in Hc.
    intros H. injection H as _ _ Hb. subst before.
    apply not_in_app; [assumption|].
    rewrite app_nil_r. cbn. intuition discriminate.
  - unfold Newsapp2.prepare.
    destruct (input_validation inp); [discriminate|].
    unfold bind at 1. unfold emit at 1.
    destruct (genai_Client w (gemini_api_key inp)) as [c|e]; [|cbn; discriminate].
    unfold bind at 1.
    pose proof (extract_article_content_trace w c (news_url inp)
                  (0 + ncalls [EvClient (gemini_api_key inp)])%nat) as Ht.
    pose proof (retry_events w c [url_extraction_prompt (news_url inp)]
                  (Some Newsapp2.extraction_config) default_max_retries
                  (0 + ncalls [EvClient (gemini_api_key inp)])%nat) as Hr.
    apply retry_event_not_stop in Hr.
    destruct (Newsapp2.extract_article_content w c (news_url inp) _)
      as [[t|m] evs]; [|cbn; discriminate].
    cbn [snd] in Ht. subst evs.
    destruct (negb (truthy t) || (len t <? 50)); [cbn; discriminate|].
    cbn. intros H. injection H as _ _ Hb. subst before. cbn in Hr.
    intros [Hin|[Hin|Hin]]; try discriminate.
    apply in_app_or in Hin as [Hin|Hin]; [tauto|].
    cbn in Hin. intuition discriminate.
Qed.

(** C9. In either script, when the retried summary call returns [None]
    the script reports [MsgNoSummary] and goes on to the vocabulary stage,
    whose first generation call carries the same clean text; the run does
    not stop. *)
Theorem summary_failure_keeps_vocabulary_stage :
  forall (v : Variant) (w : World) (inp : Inputs) (client : Client)
         (clean : str) (before : list Event),
    process_button inp = true ->
    prepare_of v w inp 0%nat = (Some (client, clean), before) ->
    fst (make_gemini_call_with_retry w client [summary_prompt clean]
           (Some summary_config) default_max_retries (ncalls before)) = None ->
    exists attempts after,
      main_of v w inp
      = before
        ++ [st_header HeadCleanText; st_text_area clean; st_header HeadSummary]
        ++ attempts
        ++ [st_error MsgNoSummary; st_header HeadVocabulary;
            EvGenerate client (vocab_request clean)]
        ++ after
      /\ Forall (retry_event client (summary_request clean)) attempts
      /\ ~ In st_stop (main_of v w inp).
Proof.
  intros v w inp client clean before Hb Hp Hfail.
  pose proof (prepare_of_not_stop _ _ _ _ _ _ Hp) as Hstop.
  rewrite (main_of_trace v w inp client clean before Hb Hp).
  rewrite report_stages_trace, summary_stage_trace, vocab_stage_trace.
  cbv zeta. rewrite Hfail.
  set (scall := make_gemini_call_with_retry w client [summary_prompt clean]
                  (Some summary_config) default_max_retries (ncalls before)).
  set (m := (ncalls before + _)%nat).
  destruct (retry_first_call w client [vocab_prompt clean] (Some vocab_config) m)
    as [rest Hrest].
  pose proof (retry_events w client [vocab_prompt clean] (Some vocab_config)
                default_max_retries m) as Hv.
  pose proof (retry_events w client [summary_prompt clean] (Some summary_config)
                default_max_retries (ncalls before)) as Hs.
  fold scall in Hs.
  set (vcall := make_gemini_call_with_retry w client [vocab_prompt clean]
                  (Some vocab_config) default_max_retries m) in *.
  exists (snd scall), (rest ++ vocab_outcome w (fst vcall)).
  split; [|split].
  - rewrite Hrest. cbn [summary_outcome response_text app].
    rewrite <- !app_assoc. reflexivity.
  - exact Hs.
  - apply not_in_app; [assumption|].
    apply not_in_app; [cbn; intuition discriminate|].
    apply not_in_app.
    + intros [Hin|Hin]; [discriminate|].
      apply in_app_or in Hin as [Hin|Hin];
        [exact (retry_event_not_stop _ _ _ Hs Hin)|].
      cbn in Hin. intuition discriminate.
    + intros [Hin|Hin]; [discriminate|].
      apply in_app_or in Hin as [Hin|Hin];
        [exact (retry_event_not_stop _ _ _ Hv Hin)|].
      exact (vocab_outcome_not_stop _ _ Hin).
Qed.

Lemma summary_failure_keeps_vocabulary_stage_witness :
  (exists attempts after,
     main_of Delegated world_one_answer sample_inputs
     = [EvClient "key"; st_subheader HeadFetchAndClean;
        EvGenerate sample_client (fetch_request sample_url);
        st_success MsgFetchedAndCleaned]
       ++ [st_header HeadCleanText; st_text_area sample_article;
           st_header HeadSummary]
       ++ attempts
       ++ [st_error MsgNoSummary; st_header HeadVocabulary;
           EvGenerate sample_client (vocab_request sample_article)]
       ++ after
     /\ Forall (retry_event sample_client (summary_request sample_article))
          attempts
     /\ ~ In st_stop (main_of Delegated world_one_answer sample_inputs))
  /\ (exists attempts after,
        main_of LocalScrape world_unavailable sample_inputs
        = snd (Newsapp.prepare world_unavailable sample_inputs 0%nat)
          ++ [st_header HeadCleanText; st_text_area sample_article;
              st_header HeadSummary]
          ++ attempts
          ++ [st_error MsgNoSummary; st_header HeadVocabulary;
              EvGenerate sample_client (vocab_request sample_article)]
          ++ after
        /\ Forall (retry_event sample_client (summary_request sample_article))
             attempts
        /\ ~ In st_stop (main_of LocalScrape world_unavailable sample_inputs)).
Proof.
  split.
  - apply (summary_failure_keeps_vocabulary_stage Delegated world_one_answer
             sample_inputs sample_client sample_article
             [EvClient "key"; st_subheader HeadFetchAndClean;
              EvGenerate sample_client (fetch_request sample_url);
              st_success MsgFetchedAndCleaned]).
    + reflexivity.
    + reflexivity.
    + reflexivity.
  - apply (summary_failure_keeps_vocabulary_stage LocalScrape world_unavailable
             sample_inputs sample_client sample_article
             (snd (Newsapp.prepare world_unavailable sample_inputs 0%nat))).
    + reflexivity.
    + reflexivity.
    + reflexivity.
Defined.

(** C4. In the local-scrape script, when the cleaning step fails
    ([extract_main_content_with_gemini] returns an error) the clean text is
    the fetched text itself, the fallback warning is shown, and the summary
    and vocabulary stages both issue their generation call on that text. *)
Theorem clean_failure_falls_back_to_raw_text :
  forall (w : World) (inp : Inputs) (noisy : str) (fetched : list Event)
         (client : Client) (m : Message),
    process_button inp = true ->
    input_validation inp = None ->
    Newsapp.get_article_text w (news_url inp) = (Text noisy, fetched) ->
    50 <= len noisy ->
    genai_Client w (gemini_api_key inp) = Returned client ->
    fst (Newsapp.extract_main_content_with_gemini w client noisy 0%nat) = Error m ->
    exists before attempts after,
      Newsapp.prepare w inp 0%nat
      = (Some (client, noisy),
         before ++ [st_error m; st_warning MsgFallbackToNoisy])
      /\ Newsapp.main w inp
         = before
           ++ [st_error m; st_warning MsgFallbackToNoisy;
               st_header HeadCleanText; st_text_area noisy;
               st_header HeadSummary; EvGenerate client (summary_request noisy)]
           ++ attempts
           ++ [st_header HeadVocabulary; EvGenerate client (vocab_request noisy)]
           ++ after.
Proof.
  intros w inp noisy fetched client m Hb Hv Hget Hlen Hclient Hfail.
  pose proof (newsapp_prepare_clean w inp noisy fetched client Hv Hget Hlen Hclient)
    as Hp.
  rewrite clean_stage_trace in Hp. cbv zeta in Hp. rewrite Hfail in Hp.
  cbn [fst snd] in Hp.
  set (cleaning := snd (Newsapp.extract_main_content_with_gemini w client noisy 0%nat))
    in Hp.
  set (before := fetched ++ [st_success MsgFetched; EvClient (gemini_api_key inp)]
                   ++ st_subheader HeadCleaning :: cleaning).
  assert (Hp' : Newsapp.prepare w inp 0%nat
                = (Some (client, noisy),
                   before ++ [st_error m; st_warning MsgFallbackToNoisy])).
  { rewrite Hp. subst before. f_equal. rewrite <- !app_assoc. reflexivity. }
  pose proof (main_of_trace LocalScrape w inp client noisy _ Hb Hp') as Hmain.
  cbn [main_of] in Hmain.
  rewrite report_stages_trace, summary_stage_trace, vocab_stage_trace in Hmain.
  cbv zeta in Hmain.
  set (n := ncalls (before ++ [st_error m; st_warning MsgFallbackToNoisy])) in Hmain.
  destruct (retry_first_call w client [summary_prompt noisy] (Some summary_config) n)
    as [srest Hs].
  set (scall := make_gemini_call_with_retry w client [summary_prompt noisy]
                  (Some summary_config) default_max_retries n) in *.
  set (k := (n + _)%nat) in Hmain.
  destruct (retry_first_call w client [vocab_prompt noisy] (Some vocab_config) k)
    as [vrest Hvc].
  set (vcall := make_gemini_call_with_retry w client [vocab_prompt noisy]
                  (Some vocab_config) default_max_retries k) in *.
  exists before, (srest ++ [summary_outcome (fst scall)]),
         (vrest ++ vocab_outcome w (fst vcall)).
  split; [exact Hp'|].
  rewrite Hmain, Hs, Hvc. cbn [app]. rewrite <- !app_assoc. reflexivity.
Qed.

Lemma clean_failure_falls_back_to_raw_text_witness :
  exists before attempts after,
    Newsapp.prepare world_unavailable sample_inputs 0%nat
    = (Some (sample_client, sample_article),
       before ++ [st_error MsgExtractionFailed; st_warning MsgFallbackToNoisy])
    /\ Newsapp.main world_unavailable sample_inputs
       = before
         ++ [st_error MsgExtractionFailed; st_warning MsgFallbackToNoisy;
             st_header HeadCleanText; st_text_area sample_article;
             st_header HeadSummary;
             EvGenerate sample_client (summary_request sample_article)]
         ++ attempts
         ++ [st_header HeadVocabulary;
             EvGenerate sample_client (vocab_request sample_article)]
         ++ after.
Proof.
  apply (clean_failure_falls_back_to_raw_text world_unavailable sample_inputs
           sample_article [EvHttpGet sample_url] sample_client
           MsgExtractionFailed).
  - reflexivity.
  - reflexivity.
  - reflexivity.
  - discriminate.
  - reflexivity.
  - reflexivity.
Defined.

(** ** Order of client construction and stages *)

Lemma input_validation_events (inp : Inputs) (evs : list Event) :
  input_validation inp = Some evs ->
  evs = [st_info MsgEnterUrl; st_stop]
  \/ evs = [st_error MsgEnterKey; st_stop]
  \/ evs = [st_error MsgBadUrl; st_stop].
Proof.
  unfold input_validation.
  destruct (negb (truthy (news_url inp))); [intros [= <-]; tauto|].
  destruct (negb (truthy (gemini_api_key inp))); [intros [= <-]; tauto|].
  destruct (negb _); [intros [= <-]; tauto | discriminate].
Qed.




Lemma newsapp_main_snd (w : World) (inp : Inputs) :
  process_button inp = true ->
  Newsapp.main w inp
  = snd (Newsapp.prepare w inp 0%nat)
    ++ match fst (Newsapp.prepare w inp 0%nat) with
       | Some (client, clean) =>
           snd (report_stages w client clean
                  (ncalls (snd (Newsapp.prepare w inp 0%nat))))
       | None => []
       end.
Proof.
  intros Hb. unfold Newsapp.main, Newsapp.pipeline. rewrite Hb, bind_snd.
  now destruct (fst (Newsapp.prepare w inp 0%nat)) as [[client clean]|].
Qed.

Lemma newsapp2_main_snd (w : World) (inp : Inputs) :
  process_button inp = true ->
  Newsapp2.main w inp
  = snd (Newsapp2.prepare w inp 0%nat)
    ++ match fst (Newsapp2.prepare w inp 0%nat) with
       | Some (client, clean) =>
           snd (report_stages w client clean
                  (ncalls (snd (Newsapp2.prepare w inp 0%nat))))
       | None => []
       end.
Proof.
  intros Hb. unfold Newsapp2.main, Newsapp2.pipeline. rewrite Hb, bind_snd.
  now destruct (fst (Newsapp2.prepare w inp 0%nat)) as [[client clean]|].
Qed.




(** ** The length check *)

(** C6, as the scripts have it.  A fetched text shorter than 50 characters
    stops the run at the length check, before the clean, summary and
    vocabulary stages.  The local-scrape script has then issued no
    generation call; the delegated script has issued only the calls of its
    fetch. *)
Theorem short_text_stops_at_validation :
  forall (w : World) (inp : Inputs) (t : str),
    process_button inp = true ->
    input_validation inp = None ->
    len t < 50 ->
    (forall fetched,
        Newsapp.get_article_text w (news_url inp) = (Text t, fetched) ->
        Newsapp.main w inp = fetched ++ [st_error MsgNoMeaningfulText; st_stop]
        /\ ncalls (Newsapp.main w inp) = 0%nat)
    /\ (forall client fetched,
          genai_Client w (gemini_api_key inp) = Returned client ->
          Newsapp2.extract_article_content w client (news_url inp) 0%nat
            = (Text t, fetched) ->
          Newsapp2.main w inp
            = EvClient (gemini_api_key inp) :: fetched
                ++ [st_error MsgNoMeaningfulText; st_stop]
          /\ forall c r, In (EvGenerate c r) (Newsapp2.main w inp) ->
               c = client /\ r = fetch_request (news_url inp)).
Proof.
  intros w inp t Hb Hv Hlen.
  assert (Hshort : negb (truthy t) || (len t <? 50) = true).
  { replace (len t <? 50) with true by (symmetry; apply Z.ltb_lt; lia).
    apply orb_true_r. }
  split.
  - intros fetched Hget.
    assert (Hmain : Newsapp.main w inp
                    = fetched ++ [st_error MsgNoMeaningfulText; st_stop]).
    { unfold Newsapp.main, Newsapp.pipeline, Newsapp.prepare.
      rewrite Hb, Hv. unfold bind, emit, ret. rewrite Hget, Hshort.
      cbn. now rewrite app_nil_r. }
    split; [exact Hmain|].
    pose proof (get_article_text_ncalls w (news_url inp)) as Hn.
    rewrite Hget in Hn. cbn [snd] in Hn.
    rewrite Hmain, ncalls_app, Hn. reflexivity.
  - intros client fetched Hclient Hfetch.
    assert (Hmain : Newsapp2.main w inp
                    = EvClient (gemini_api_key inp) :: fetched
                        ++ [st_error MsgNoMeaningfulText; st_stop]).
    { unfold Newsapp2.main, Newsapp2.pipeline, Newsapp2.prepare.
      rewrite Hb, Hv. unfold bind at 1 2 3. unfold emit at 1.
      rewrite Hclient. cbn [ncalls filter is_generate List.length Nat.add].
      rewrite Hfetch, Hshort. cbn. now rewrite app_nil_r. }
    split; [exact Hmain|].
    intros c r Hin. rewrite Hmain in Hin.
    pose proof (extract_article_content_trace w client (news_url inp) 0%nat) as Ht.
    rewrite Hfetch in Ht. cbn [snd] in Ht.
    pose proof (retry_events w client [url_extraction_prompt (news_url inp)]
                  (Some Newsapp2.extraction_config) default_max_retries 0%nat) as Hr.
    rewrite Forall_forall in Hr.
    destruct Hin as [Hin|Hin]; [discriminate|].
    apply in_app_or in Hin as [Hin|Hin]; [|cbn in Hin; intuition discriminate].
    rewrite Ht in Hin. destruct Hin as [Hin|Hin]; [discriminate|].
    exact (Hr _ Hin).
Qed.

Lemma short_text_stops_at_validation_witness :
  (Newsapp.main world_short sample_inputs
   = [EvHttpGet sample_url] ++ [st_error MsgNoMeaningfulText; st_stop]
   /\ ncalls (Newsapp.main world_short sample_inputs) = 0%nat)
  /\ (Newsapp2.main world_short sample_inputs
      = EvClient "key"
          :: [st_subheader HeadFetchAndClean;
              EvGenerate sample_client (fetch_request sample_url)]
          ++ [st_error MsgNoMeaningfulText; st_stop]
      /\ forall c r, In (EvGenerate c r) (Newsapp2.main world_short sample_inputs) ->
           c = sample_client /\ r = fetch_request sample_url).
Proof.
  destruct (short_text_stops_at_validation world_short sample_inputs short_text)
    as [H1 H2]; [reflexivity | reflexivity | reflexivity |].
  split.
  - apply (H1 [EvHttpGet sample_url]). reflexivity.
  - apply (H2 sample_client
             [st_subheader HeadFetchAndClean;
              EvGenerate sample_client (fetch_request sample_url)]);
      reflexivity.
Defined.

(** C6 as stated fails on the delegated script: the text that turns out
    too short was itself obtained by a generation call. *)
Lemma delegated_fetch_is_a_generation_call :
  fst (Newsapp2.extract_article_content world_short sample_client sample_url 0%nat)
    = Text short_text
  /\ len short_text < 50
  /\ Newsapp2.main world_short sample_inputs
     = [EvClient "key"; st_subheader HeadFetchAndClean;
        EvGenerate sample_client (fetch_request sample_url);
        st_error MsgNoMeaningfulText; st_stop]
  /\ ncalls (Newsapp2.main world_short sample_inputs) = 1%nat.
Proof. repeat split. Qed.

(** ** The vocabulary table *)

Lemma mem_In (k : str) (l : list str) : mem k l = true <-> In k l.
Proof.
  induction l as [|x l IH]; cbn; [intuition discriminate|].
  rewrite orb_true_iff, IH, String.eqb_eq. intuition congruence.
Qed.

Lemma distinct_NoDup (l : list str) : distinct l = true -> NoDup l.
Proof.
  induction l as [|x l IH]; cbn; [constructor|].
  rewrite andb_true_iff, negb_true_iff. intros [Hx Hl].
  constructor; [|auto].
  intros Hin. apply mem_In in Hin. congruence.
Qed.

Lemma add_unseen_seen (ks : list str) :
  forall seen, incl ks seen -> add_unseen seen ks = seen.
Proof.
  induction ks as [|k ks IH]; intros seen Hincl; cbn; [reflexivity|].
  assert (Hk : mem k seen = true) by (apply mem_In, Hincl; now left).
  rewrite Hk. apply IH. intros x Hx. apply Hincl. now right.
Qed.

Lemma add_unseen_fresh (ks : list str) :
  forall seen, NoDup (seen ++ ks) -> add_unseen seen ks = seen ++ ks.
Proof.
  induction ks as [|k ks IH]; intros seen Hnd; cbn; [now rewrite app_nil_r|].
  assert (Hk : mem k seen = false).
  { destruct (mem k seen) eqn:E; [|reflexivity].
    apply mem_In in E. apply NoDup_remove_2 in Hnd.
    exfalso. apply Hnd, in_or_app. now left. }
  rewrite Hk, IH; rewrite <- app_assoc; [reflexivity | exact Hnd].
Qed.

Lemma fold_add_unseen_seen (records : list (list (str * json))) :
  forall seen,
    (forall r, In r records -> incl (keys r) seen) ->
    fold_left (fun seen r => add_unseen seen (keys r)) records seen = seen.
Proof.
  induction records as [|r records IH]; intros seen Hincl; cbn; [reflexivity|].
  rewrite add_unseen_seen by (apply Hincl; now left).
  apply IH. intros r' Hr'. apply Hincl. now right.
Qed.

(** When every record has the keys of the first one, the columns are the
    keys of the first record, in its order. *)
Lemma union_keys_first (r : list (str * json)) (records : list (list (str * json))) :
  NoDup (keys r) ->
  (forall r', In r' records -> incl (keys r') (keys r)) ->
  union_keys (r :: records) = keys r.
Proof.
  intros Hnd Hincl. unfold union_keys. cbn [fold_left].
  rewrite (add_unseen_fresh (keys r) []) by exact Hnd. cbn [app].
  now apply fold_add_unseen_seen.
Qed.

Lemma assoc_In (k : str) (fields : list (str * json)) :
  In k (keys fields) -> exists v, assoc k fields = Some v /\ In (k, v) fields.
Proof.
  induction fields as [|[k' v'] fields IH]; cbn; [tauto|].
  intros Hin. destruct (String.eqb_spec k k') as [->|Hne].
  - exists v'. split; [reflexivity | now left].
  - destruct Hin as [Heq|Hin]; [congruence|].
    destruct (IH Hin) as (v & Hv & Hv'). exists v. split; [exact Hv | now right].
Qed.

(** What conformance to the item schema says of an entry. *)
Lemma conforms_entry (e : json) :
  conforms (OBJECT [("English_Word", STRING); ("Thai_Translation", STRING);
                    ("Example_Sentence", STRING)] required_keys) e = true ->
  exists fields,
    e = JObject fields
    /\ NoDup (keys fields)
    /\ incl required_keys (keys fields)
    /\ incl (keys fields) required_keys
    /\ forall k v, In (k, v) fields -> exists s, v = JString s.
Proof.
  destruct e as [| | | |items|fields]; cbn [conforms]; try discriminate.
  rewrite !andb_true_iff. intros [[Hd Hreq] Hdecl].
  rewrite forallb_forall in Hreq, Hdecl.
  assert (Hfield : forall k v, In (k, v) fields ->
                     In k required_keys /\ exists s, v = JString s).
  { intros k v Hin. specialize (Hdecl _ Hin). cbn [fst snd] in Hdecl.
    unfold required_keys.
    destruct (String.eqb_spec k "English_Word") as [->|_];
      [|destruct (String.eqb_spec k "Thai_Translation") as [->|_];
        [|destruct (String.eqb_spec k "Example_Sentence") as [->|_];
          [|discriminate]]];
      (split; [cbn; tauto|]);
      destruct v; try discriminate; eauto. }
  exists fields. repeat split.
  - now apply distinct_NoDup.
  - intros k Hk. apply mem_In, Hreq, Hk.
  - intros k Hk. apply in_map_iff in Hk as ([k' v] & <- & Hin).
    now apply (Hfield k' v).
  - intros k v Hin. now apply (Hfield k v).
Qed.

Lemma conforming_entries_records (entries : list json) :
  conforms vocab_schema (JArray entries) = true ->
  exists records,
    as_records entries = Some records
    /\ entries = map JObject records
    /\ Forall (fun r => NoDup (keys r)
                        /\ incl required_keys (keys r)
                        /\ incl (keys r) required_keys
                        /\ forall k v, In (k, v) r -> exists s, v = JString s)
              records.
Proof.
  unfold vocab_schema. cbn [conforms].
  induction entries as [|e entries IH]; intros Hall.
  - exists []. repeat split. constructor.
  - cbn [forallb] in Hall. apply andb_true_iff in Hall as [He Hall].
    destruct (IH Hall) as (records & Hrec & Hmap & Hforall).
    apply conforms_entry in He as (fields & -> & Hfields).
    exists (fields :: records). cbn [as_records map]. rewrite Hrec, <- Hmap.
    repeat split. now constructor.
Qed.

Lemma row_of_field (cols : list str) (r : list (str * json)) :
  row_of cols r = map (fun k => field k (JObject r)) cols.
Proof. reflexivity. Qed.

(** The table built from entries in the shape of the schema. *)
Lemma build_table_conforming (w : World) (t : str) (entries : list json) :
  json_loads w t = Returned (JArray entries) ->
  conforms vocab_schema (JArray entries) = true ->
  entries <> [] ->
  build_table w t
  = Returned (mkFrame display_columns
                (map (fun entry => map (fun k => field k entry) (first_keys entries))
                     entries))
  /\ Permutation (first_keys entries) required_keys
  /\ forall entry k, In entry entries -> In k (first_keys entries) ->
       exists s, field k entry = Some (JString s).
Proof.
  intros Hload Hconf Hne.
  destruct (conforming_entries_records entries Hconf) as (records & Hrec & -> & Hall).
  destruct records as [|r records]; [contradiction|].
  cbn [map first_keys object_keys].
  pose proof (Forall_inv Hall) as (Hnd & Hreq & Hdecl & _).
  rewrite Forall_forall in Hall.
  assert (Hperm : Permutation (keys r) required_keys).
  { apply NoDup_Permutation; [exact Hnd | |].
    - unfold required_keys. repeat constructor; cbn; intuition discriminate.
    - intros k. split; [apply Hdecl | apply Hreq]. }
  assert (Hcols : union_keys (r :: records) = keys r).
  { apply union_keys_first; [exact Hnd|].
    intros r' Hr' k Hk. apply Hreq.
    destruct (Hall r' (or_intror Hr')) as (_ & _ & Hd' & _). now apply Hd'. }
  split; [|split].
  - unfold build_table. rewrite Hload. unfold pd_DataFrame. rewrite Hrec.
    unfold frame_of_records. rewrite Hcols. unfold set_columns.
    cbn [columns rows]. rewrite length_map, (Permutation_length Hperm).
    cbn [required_keys display_columns List.length Nat.eqb].
    f_equal. f_equal. rewrite map_map. reflexivity.
  - exact Hperm.
  - intros e k He Hk. cbn [map] in He.
    change (JObject r :: map JObject records) with (map JObject (r :: records)) in He.
    apply in_map_iff in He as (r' & <- & Hr').
    destruct (Hall r' Hr') as (_ & Hreq' & _ & Hstr).
    cbn [field].
    destruct (assoc_In k r') as (v & Hv & Hin); [apply Hreq', Hdecl, Hk|].
    destruct (Hstr k v Hin) as [s ->]. eauto.
Qed.

(** C7, as the scripts have it.  When the retried call returns a text that
    decodes to five entries in the shape of the schema, the vocabulary stage
    shows a table with the three display columns and five rows, in the
    order of the response; row [i] holds the strings of entry [i], which go
    into the table as they are, empty or not. *)
Theorem vocabulary_table_keeps_the_five_entries :
  forall (w : World) (client : Client) (clean : str) (n : nat)
         (response : Response) (t : str) (entries : list json),
    fst (make_gemini_call_with_retry w client [vocab_prompt clean]
           (Some vocab_config) default_max_retries n) = Some response ->
    response_text (Some response) = Some t ->
    json_loads w t = Returned (JArray entries) ->
    conforms vocab_schema (JArray entries) = true ->
    List.length entries = 5%nat ->
    exists df,
      snd (vocab_stage w client clean n)
      = st_header HeadVocabulary
          :: snd (make_gemini_call_with_retry w client [vocab_prompt clean]
                    (Some vocab_config) default_max_retries n)
          ++ [st_dataframe df]
      /\ columns df = display_columns
      /\ List.length (rows df) = 5%nat
      /\ rows df
         = map (fun entry => map (fun k => field k entry) (first_keys entries))
               entries
      /\ Permutation (first_keys entries) required_keys
      /\ forall entry k, In entry entries -> In k (first_keys entries) ->
           exists s, field k entry = Some (JString s).
Proof.
  intros w client clean n response t entries Hcall Htext Hload Hconf Hlen.
  assert (Hne : entries <> []) by (intros ->; discriminate).
  destruct (build_table_conforming w t entries Hload Hconf Hne)
    as (Hbuild & Hperm & Hcells).
  eexists. split; [|split; [|split; [|split; [|split]]]].
  - rewrite vocab_stage_trace. cbv zeta. rewrite Hcall.
    unfold vocab_outcome. rewrite Htext. unfold show_table. rewrite Hbuild.
    reflexivity.
  - reflexivity.
  - cbn [rows]. now rewrite length_map.
  - reflexivity.
  - exact Hperm.
  - exact Hcells.
Qed.

Lemma vocabulary_table_keeps_the_five_entries_witness :
  exists df,
    snd (vocab_stage (world_answering (json_dumps five_entries)) sample_client
           sample_article 0%nat)
    = st_header HeadVocabulary
        :: snd (make_gemini_call_with_retry
                  (world_answering (json_dumps five_entries)) sample_client
                  [vocab_prompt sample_article] (Some vocab_config)
                  default_max_retries 0%nat)
        ++ [st_dataframe df]
    /\ columns df = display_columns
    /\ List.length (rows df) = 5%nat
    /\ rows df = five_rows
    /\ Permutation required_keys required_keys
    /\ forall entry k,
         In entry five_items ->
         In k required_keys ->
         exists s, field k entry = Some (JString s).
Proof.
  apply (vocabulary_table_keeps_the_five_entries
           (world_answering (json_dumps five_entries)) sample_client
           sample_article 0%nat
           (mkResponse (Some (json_dumps five_entries)))
           (json_dumps five_entries) five_items).
  - reflexivity.
  - reflexivity.
  - reflexivity.
  - reflexivity.
  - reflexivity.
Defined.

(** C7 as stated fails: five entries in the shape of the schema, one of
    them with an empty word, are shown with the empty cell. *)
Lemma schema_shaped_entry_with_empty_word_is_shown :
  json_loads (world_answering (json_dumps five_entries_one_blank))
    (json_dumps five_entries_one_blank)
    = Returned five_entries_one_blank
  /\ conforms vocab_schema five_entries_one_blank = true
  /\ List.length five_items_one_blank = 5%nat
  /\ exists df,
       In (st_dataframe df)
          (snd (vocab_stage (world_answering (json_dumps five_entries_one_blank))
                  sample_client sample_article 0%nat))
       /\ List.length (rows df) = 5%nat
       /\ forallb (forallb filled_cell) (rows df) = false.
Proof.
  repeat split.
  eexists. split; [|split].
  - cbn. right. right. left. reflexivity.
  - reflexivity.
  - reflexivity.
Qed.

Lemma retry_trace_has_no_table (w : World) (client : Client)
    (contents : list Prompt) (config : option GenerateContentConfig) (n : nat)
    (tail : list Event) :
  (forall df, ~ In (st_dataframe df) tail) ->
  forall df,
    ~ In (st_dataframe df)
        (st_header HeadVocabulary
           :: snd (make_gemini_call_with_retry w client contents config
                     default_max_retries n) ++ tail).
Proof.
  intros Htail df [Hin|Hin]; [discriminate|].
  apply in_app_or in Hin as [Hin|Hin]; [|exact (Htail df Hin)].
  exact (retry_event_not_dataframe _ _ _ df (retry_events _ _ _ _ _ _) Hin).
Qed.

Lemma build_table_invalid_json (w : World) (t : str) (e : PyExc) :
  json_loads w t = Raised e -> build_table w t = Raised e.
Proof. intros H. unfold build_table. now rewrite H. Qed.

(** C8, as the scripts have it.  When the retried call returns a text from
    which no table is built, the vocabulary stage ends in one of two errors
    and shows no table: a text that [json.loads] rejects gives the
    invalid-JSON error followed by the text itself; an exception of another
    class raised while the table is built gives the table-display error
    with that exception, and the text is not shown. *)
Theorem malformed_vocabulary_response_shows_no_table :
  forall (w : World) (client : Client) (clean : str) (n : nat)
         (response : Response) (t : str),
    fst (make_gemini_call_with_retry w client [vocab_prompt clean]
           (Some vocab_config) default_max_retries n) = Some response ->
    response_text (Some response) = Some t ->
    (forall e, json_loads w t = Raised e ->
               isinstance e JSONDecodeError = true ->
       snd (vocab_stage w client clean n)
       = st_header HeadVocabulary
           :: snd (make_gemini_call_with_retry w client [vocab_prompt clean]
                     (Some vocab_config) default_max_retries n)
           ++ [st_error MsgInvalidJson; st_text t])
    /\ (forall e, build_table w t = Raised e ->
                  isinstance e JSONDecodeError = false ->
          snd (vocab_stage w client clean n)
          = st_header HeadVocabulary
              :: snd (make_gemini_call_with_retry w client [vocab_prompt clean]
                        (Some vocab_config) default_max_retries n)
              ++ [st_error (MsgTableDisplay e)]
          /\ forall body, ~ In (st_text body) (snd (vocab_stage w client clean n)))
    /\ (forall e, build_table w t = Raised e ->
          forall df, ~ In (st_dataframe df) (snd (vocab_stage w client clean n))).
Proof.
  intros w client clean n response t Hcall Htext.
  assert (Htrace : forall e, build_table w t = Raised e ->
    snd (vocab_stage w client clean n)
    = st_header HeadVocabulary
        :: snd (make_gemini_call_with_retry w client [vocab_prompt clean]
                  (Some vocab_config) default_max_retries n)
        ++ (if isinstance e JSONDecodeError
            then [st_error MsgInvalidJson; st_text t]
            else [st_error (MsgTableDisplay e)])).
  { intros e Hbuild. rewrite vocab_stage_trace. cbv zeta. rewrite Hcall.
    unfold vocab_outcome. rewrite Htext. unfold show_table. rewrite Hbuild.
    now destruct (isinstance e JSONDecodeError). }
  split; [|split].
  - intros e Hload Hcls.
    rewrite (Htrace e (build_table_invalid_json w t e Hload)), Hcls. reflexivity.
  - intros e Hbuild Hcls. rewrite (Htrace e Hbuild), Hcls.
    split; [reflexivity|].
    intros body [Hin|Hin]; [discriminate|].
    apply in_app_or in Hin as [Hin|Hin]; [|cbn in Hin; intuition discriminate].
    exact (retry_event_not_text _ _ _ body (retry_events _ _ _ _ _ _) Hin).
  - intros e Hbuild. rewrite (Htrace e Hbuild).
    apply retry_trace_has_no_table. intros df.
    destruct (isinstance e JSONDecodeError); cbn; intuition discriminate.
Qed.

Lemma malformed_vocabulary_response_shows_no_table_witness :
  snd (vocab_stage (world_answering "oops") sample_client sample_article 0%nat)
    = [st_header HeadVocabulary;
       EvGenerate sample_client (vocab_request sample_article);
       st_error MsgInvalidJson; st_text "oops"]
  /\ snd (vocab_stage world_answering_one_key sample_client sample_article 0%nat)
     = [st_header HeadVocabulary;
        EvGenerate sample_client (vocab_request sample_article);
        st_error (MsgTableDisplay (mkExc OtherException "Length mismatch"))]
  /\ forall df,
       ~ In (st_dataframe df)
           (snd (vocab_stage world_answering_one_key sample_client
                   sample_article 0%nat)).
Proof.
  split; [|split].
  - destruct (malformed_vocabulary_response_shows_no_table
                (world_answering "oops") sample_client sample_article 0%nat
                (mkResponse (Some "oops")) "oops") as (H & _ & _);
      [reflexivity | reflexivity |].
    apply (H (mkExc JSONDecodeError "Expecting value")); reflexivity.
  - destruct (malformed_vocabulary_response_shows_no_table
                world_answering_one_key sample_client sample_article 0%nat
                (mkResponse (Some (json_dumps one_key_entries)))
                (json_dumps one_key_entries)) as (_ & H & _);
      [reflexivity | reflexivity |].
    apply (H (mkExc OtherException "Length mismatch")); reflexivity.
  - destruct (malformed_vocabulary_response_shows_no_table
                world_answering_one_key sample_client sample_article 0%nat
                (mkResponse (Some (json_dumps one_key_entries)))
                (json_dumps one_key_entries)) as (_ & _ & H);
      [reflexivity | reflexivity |].
    apply (H (mkExc OtherException "Length mismatch")); reflexivity.
Defined.

(** C8 as stated fails: a payload that is valid JSON and not in the shape
    of the schema (three properties that the schema does not declare) is
    shown as a table; no error is reported and the text is not shown. *)
Lemma payload_outside_schema_is_shown_as_table :
  json_loads (world_answering (json_dumps foreign_entries))
    (json_dumps foreign_entries) = Returned foreign_entries
  /\ conforms vocab_schema foreign_entries = false
  /\ snd (vocab_stage (world_answering (json_dumps foreign_entries))
            sample_client sample_article 0%nat)
     = [st_header HeadVocabulary;
        EvGenerate sample_client (vocab_request sample_article);
        st_dataframe
          (mkFrame display_columns
             [[Some (JString "x"); Some (JString "y"); Some (JString "z")]])].
Proof. repeat split. Qed.

(** ** Invariants of the retry controller *)

Lemma backoff_sum (i k : nat) :
  fold_right Z.add 0 (map (fun j => 2 ^ Z.of_nat j) (seq i k))
  = 2 ^ Z.of_nat (i + k) - 2 ^ Z.of_nat i.
Proof.
  revert i. induction k as [|k IH]; intros i; cbn [seq map fold_right].
  - rewrite Nat.add_0_r. lia.
  - rewrite IH. replace (i + S k)%nat with (S i + k)%nat by lia.
    replace (Z.of_nat (S i)) with (Z.of_nat i + 1) by lia.
    rewrite Z.pow_add_r by lia. lia.
Qed.

(** Whatever the service does, the loop over the attempts [i], ...,
    [i + len - 1] makes at most [len] calls and waits between them for
    [2^i], [2^(i+1)], ... seconds. *)
Lemma retry_loop_waits (w : World) (client : Client) (request : Request)
    (max_retries : Z) (len : nat) :
  forall (i n : nat),
    Z.of_nat (i + len) = max_retries ->
    let run := retry_loop w client request max_retries
                 (map Z.of_nat (seq i len)) n in
    (ncalls (snd run) <= len)%nat
    /\ (1 <= len -> 1 <= ncalls (snd run))%nat
    /\ sleeps (snd run)
       = map (fun j => 2 ^ Z.of_nat j) (seq i (ncalls (snd run) - 1)).
Proof.
  induction len as [|len IH]; intros i n Hmax run; subst run.
  - cbn. repeat split; lia.
  - cbn [seq map]. rewrite retry_loop_cons.
    destruct (generate_content w client n request) as [response|e];
      [cbn; repeat split; lia|].
    destruct (isinstance e APIError); [|cbn; repeat split; lia].
    destruct (Z.ltb_spec (Z.of_nat i) (max_retries - 1)) as [Hlt|Hge];
      [|cbn; repeat split; lia].
    specialize (IH (S i) (S n) ltac:(lia)). cbv zeta in IH.
    destruct (retry_loop w client request max_retries
                (map Z.of_nat (seq (S i) len)) (S n)) as [r evs].
    cbn [fst snd] in *. destruct IH as (Hle & Hpos & Hs).
    assert (Hc : ncalls (EvGenerate client request
                           :: st_warning (MsgApiRetry e (2 ^ Z.of_nat i))
                           :: EvSleep (2 ^ Z.of_nat i) :: evs)
                 = S (ncalls evs)) by reflexivity.
    rewrite Hc. repeat split; try lia.
    cbn [sleeps]. rewrite Hs.
    assert (1 <= ncalls evs)%nat by (apply Hpos; lia).
    replace (S (ncalls evs) - 1)%nat with (S (ncalls evs - 1)) by lia.
    reflexivity.
Qed.

(** With [k] calls the waits add up to [2^(k-1) - 1] seconds. *)
Lemma retry_loop_total_wait (w : World) (client : Client) (request : Request)
    (max_retries : Z) (n : nat) :
  0 < max_retries ->
  let run := retry_loop w client request max_retries (py_range max_retries) n in
  (1 <= ncalls (snd run) <= Z.to_nat max_retries)%nat
  /\ sleeps (snd run) = backoff_waits (ncalls (snd run) - 1)
  /\ total_wait (snd run) = 2 ^ Z.of_nat (ncalls (snd run) - 1) - 1.
Proof.
  intros Hpos. cbv zeta. unfold py_range.
  destruct (retry_loop_waits w client request max_retries (Z.to_nat max_retries)
              0 n ltac:(lia)) as (Hle & Hge & Hs).
  split; [|split].
  - split; [apply Hge; lia | exact Hle].
  - exact Hs.
  - unfold total_wait. rewrite Hs, backoff_sum. cbn [Nat.add Z.of_nat Z.pow]. lia.
Qed.


(** X2. The waits of one retried call add up to less than
    [2^(max_retries - 1)] seconds: with the default of three attempts, at
    most 3 seconds. *)
Theorem retry_total_wait_is_bounded :
  forall (w : World) (client : Client) (contents : list Prompt)
         (config : option GenerateContentConfig) (max_retries : Z) (n : nat),
    0 <= total_wait (snd (make_gemini_call_with_retry w client contents config
                            max_retries n))
      < 2 ^ Z.max 0 (max_retries - 1)
    /\ total_wait (snd (make_gemini_call_with_retry w client contents config
                          default_max_retries n)) <= 3.
Proof.
  assert (Hgen : forall w client contents config max_retries n,
    0 <= total_wait (snd (make_gemini_call_with_retry w client contents config
                            max_retries n))
      < 2 ^ Z.max 0 (max_retries - 1)).
  { intros w client contents config max_retries n.
    unfold make_gemini_call_with_retry.
    destruct (Z.ltb_spec 0 max_retries) as [Hpos|Hneg].
    - destruct (retry_loop_total_wait w client
                  (mkRequest MODEL_NAME contents config) max_retries n Hpos)
        as (Hc & _ & Ht).
      rewrite Ht. rewrite Z.max_r by lia.
      assert (2 ^ Z.of_nat (ncalls (snd (retry_loop w client
                 (mkRequest MODEL_NAME contents config) max_retries
                 (py_range max_retries) n)) - 1) <= 2 ^ (max_retries - 1))
        by (apply Z.pow_le_mono_r; lia).
      assert (0 < 2 ^ Z.of_nat (ncalls (snd (retry_loop w client
                 (mkRequest MODEL_NAME contents config) max_retries
                 (py_range max_retries) n)) - 1))
        by (apply Z.pow_pos_nonneg; lia).
      lia.
    - unfold py_range. replace (Z.to_nat max_retries) with 0%nat by lia.
      cbn. rewrite Z.max_l by lia. cbn. lia. }
  intros w client contents config max_retries n. split; [apply Hgen|].
  specialize (Hgen w client contents config default_max_retries n).
  change (2 ^ Z.max 0 (default_max_retries - 1)) with 4 in Hgen. lia.
Qed.

(** The outcome of the last call decides the result. *)
Lemma retry_loop_last_call (w : World) (client : Client) (request : Request)
    (max_retries : Z) (len : nat) :
  forall (i n : nat),
    Z.of_nat (i + len) = max_retries ->
    (1 <= len)%nat ->
    let run := retry_loop w client request max_retries
                 (map Z.of_nat (seq i len)) n in
    exists before,
      match generate_content w client (n + ncalls (snd run) - 1) request with
      | Returned response =>
          fst run = Some response
          /\ snd run = before ++ [EvGenerate client request]
          /\ forallb (fun e => negb (is_error e)) (snd run) = true
      | Raised e =>
          fst run = None
          /\ snd run
             = before
               ++ [EvGenerate client request;
                   st_error (if isinstance e APIError
                             then MsgApiExhausted max_retries e
                             else MsgApiUnexpected e)]
      end.
Proof.
  induction len as [|len IH]; intros i n Hmax Hlen run; subst run; [lia|].
  cbn [seq map]. rewrite retry_loop_cons.
  destruct (generate_content w client n request) as [response|e] eqn:Hcall.
  - exists []. cbn [snd ncalls filter is_generate List.length].
    replace (n + 1 - 1)%nat with n by lia. rewrite Hcall. now cbn.
  - destruct (isinstance e APIError) eqn:Hcls.
    + destruct (Z.ltb_spec (Z.of_nat i) (max_retries - 1)) as [Hlt|Hge].
      * destruct (retry_loop_waits w client request max_retries len (S i) (S n)
                    ltac:(lia)) as (_ & Hge1 & _).
        specialize (IH (S i) (S n) ltac:(lia) ltac:(lia)). cbv zeta in IH.
        destruct (retry_loop w client request max_retries
                    (map Z.of_nat (seq (S i) len)) (S n)) as [r evs].
        cbn [fst snd] in *. destruct IH as [before IH].
        assert (Hc : ncalls (EvGenerate client request
                               :: st_warning (MsgApiRetry e (2 ^ Z.of_nat i))
                               :: EvSleep (2 ^ Z.of_nat i) :: evs)
                     = S (ncalls evs)) by reflexivity.
        rewrite Hc.
        assert (1 <= ncalls evs)%nat by (apply Hge1; lia).
        replace (n + S (ncalls evs) - 1)%nat with (S n + ncalls evs - 1)%nat by lia.
        exists (EvGenerate client request
                  :: st_warning (MsgApiRetry e (2 ^ Z.of_nat i))
                  :: EvSleep (2 ^ Z.of_nat i) :: before).
        destruct (generate_content w client (S n + ncalls evs - 1) request)
          as [response|e'].
        -- destruct IH as (Hr & Hev & Herr). repeat split; [exact Hr | |].
           ++ rewrite Hev. reflexivity.
           ++ cbn. exact Herr.
        -- destruct IH as (Hr & Hev). split; [exact Hr|]. rewrite Hev. reflexivity.
      * exists []. cbn [snd ncalls filter is_generate List.length].
        replace (n + 1 - 1)%nat with n by lia. rewrite Hcall, Hcls. now cbn.
    + exists []. cbn [snd ncalls filter is_generate List.length].
      replace (n + 1 - 1)%nat with n by lia. rewrite Hcall, Hcls. now cbn.
Qed.

(** X3. With at least one attempt allowed, a [None] from the retry
    controller is never silent: the trace ends with the failed call followed
    by an [st.error] that carries the exception of that call, the exhausted
    message for an [APIError] and the unexpected-error message otherwise. *)
Theorem retry_failure_is_reported :
  forall (w : World) (client : Client) (contents : list Prompt)
         (config : option GenerateContentConfig) (max_retries : Z) (n : nat),
    0 < max_retries ->
    fst (make_gemini_call_with_retry w client contents config max_retries n)
      = None ->
    exists before e,
      generate_content w client
        (n + ncalls (snd (make_gemini_call_with_retry w client contents config
                            max_retries n)) - 1)
        (mkRequest MODEL_NAME contents config) = Raised e
      /\ snd (make_gemini_call_with_retry w client contents config max_retries n)
         = before
           ++ [EvGenerate client (mkRequest MODEL_NAME contents config);
               st_error (if isinstance e APIError
                         then MsgApiExhausted max_retries e
                         else MsgApiUnexpected e)].
Proof.
  intros w client contents config max_retries n Hpos Hnone.
  unfold make_gemini_call_with_retry, py_range in *.
  destruct (retry_loop_last_call w client (mkRequest MODEL_NAME contents config)
              max_retries (Z.to_nat max_retries) 0 n ltac:(lia) ltac:(lia))
    as [before H].
  destruct (generate_content w client _ _) as [response|e].
  - destruct H as (Hr & _). congruence.
  - destruct H as (_ & Hev). exists before, e. split; [reflexivity | exact Hev].
Qed.

(** X4. A response returned by the retry controller is the answer of the
    last call it issued; that call ends the trace and no [st.error] was
    shown on the way. *)
Theorem retry_success_is_the_last_call :
  forall (w : World) (client : Client) (contents : list Prompt)
         (config : option GenerateContentConfig) (max_retries : Z) (n : nat)
         (response : Response),
    fst (make_gemini_call_with_retry w client contents config max_retries n)
      = Some response ->
    generate_content w client
      (n + ncalls (snd (make_gemini_call_with_retry w client contents config
                          max_retries n)) - 1)
      (mkRequest MODEL_NAME contents config) = Returned response
    /\ (exists before,
          snd (make_gemini_call_with_retry w client contents config max_retries n)
          = before ++ [EvGenerate client (mkRequest MODEL_NAME contents config)])
    /\ forallb (fun e => negb (is_error e))
         (snd (make_gemini_call_with_retry w client contents config
                 max_retries n)) = true.
Proof.
  intros w client contents config max_retries n response Hsome.
  unfold make_gemini_call_with_retry, py_range in *.
  destruct (Z.ltb_spec 0 max_retries) as [Hpos|Hneg].
  - destruct (retry_loop_last_call w client (mkRequest MODEL_NAME contents config)
                max_retries (Z.to_nat max_retries) 0 n ltac:(lia) ltac:(lia))
      as [before H].
    destruct (generate_content w client _ _) as [r|e].
    + destruct H as (Hr & Hev & Herr).
      assert (r = response) by congruence. subst r.
      split; [reflexivity|]. split; [now exists before | exact Herr].
    + destruct H as (Hr & _). congruence.
  - replace (Z.to_nat max_retries) with 0%nat in Hsome by lia. discriminate.
Qed.

Lemma retry_failure_is_reported_witness :
  exists before e,
    generate_content world_unavailable sample_client
      (0 + ncalls (snd (make_gemini_call_with_retry world_unavailable
                          sample_client [summary_prompt "news"] None
                          default_max_retries 0%nat)) - 1)
      (mkRequest MODEL_NAME [summary_prompt "news"] None) = Raised e
    /\ snd (make_gemini_call_with_retry world_unavailable sample_client
              [summary_prompt "news"] None default_max_retries 0%nat)
       = before
         ++ [EvGenerate sample_client
               (mkRequest MODEL_NAME [summary_prompt "news"] None);
             st_error (if isinstance e APIError
                       then MsgApiExhausted default_max_retries e
                       else MsgApiUnexpected e)].
Proof.
  apply (retry_failure_is_reported world_unavailable sample_client
           [summary_prompt "news"] None default_max_retries 0%nat).
  - reflexivity.
  - reflexivity.
Defined.

Lemma retry_success_is_the_last_call_witness :
  generate_content world_recovers sample_client
    (0 + ncalls (snd (make_gemini_call_with_retry world_recovers sample_client
                        [summary_prompt "news"] None default_max_retries
                        0%nat)) - 1)
    (mkRequest MODEL_NAME [summary_prompt "news"] None)
    = Returned (mkResponse (Some "ok"))
  /\ (exists before,
        snd (make_gemini_call_with_retry world_recovers sample_client
               [summary_prompt "news"] None default_max_retries 0%nat)
        = before
          ++ [EvGenerate sample_client
                (mkRequest MODEL_NAME [summary_prompt "news"] None)])
  /\ forallb (fun e => negb (is_error e))
       (snd (make_gemini_call_with_retry world_recovers sample_client
               [summary_prompt "news"] None default_max_retries 0%nat)) = true.
Proof.
  apply (retry_success_is_the_last_call world_recovers sample_client
           [summary_prompt "news"] None default_max_retries 0%nat
           (mkResponse (Some "ok"))).
  reflexivity.
Defined.

(** ** More on the fetcher *)

Lemma length_substring_le (m : nat) :
  forall s : str, (String.length (substring 0 m s) <= m)%nat.
Proof.
  induction m as [|m IH]; intros s.
  - destruct s; cbn; lia.
  - destruct s as [|c s]; cbn; [lia|]. specialize (IH s). lia.
Qed.

Lemma len_truthy (s : str) : truthy s = true -> 0 < len s.
Proof. destruct s; [discriminate | cbn; lia]. Qed.

(** X5. A text returned by [get_article_text] is never empty and never
    longer than 15003 characters; the call went to the page once, issued no
    generation call, and showed at most the truncation warning. *)
Theorem get_article_text_returns_bounded_text :
  forall (w : World) (url : str) (t : str) (evs : list Event),
    Newsapp.get_article_text w url = (Text t, evs) ->
    0 < len t <= 15003
    /\ (evs = [EvHttpGet url]
        \/ evs = [EvHttpGet url; st_warning (MsgTruncated 15000)]).
Proof.
  intros w url t evs. unfold Newsapp.get_article_text, Newsapp.fetch_error.
  destruct (requests_get w url) as [soup|e];
    [|destruct (isinstance e RequestException); discriminate].
  destruct (Newsapp.extracted_text soup) as [a|e];
    [|destruct (isinstance e RequestException); discriminate].
  destruct (truthy a) eqn:Ha; cbn [negb]; [|discriminate].
  apply len_truthy in Ha. unfold Newsapp.max_length.
  destruct (Z.gtb_spec (len a) 15000) as [Hlong|Hshort]; intros [= <- <-].
  - split; [|now right].
    unfold len, slice_to. rewrite length_append. cbn [String.length].
    pose proof (length_substring_le (Z.to_nat 15000) a) as Hle.
    rewrite (length_substring_prefix (Z.to_nat 15000) a) by (unfold len in Hlong; lia).
    lia.
  - split; [lia | now left].
Qed.

Lemma get_article_text_returns_bounded_text_witness :
  0 < len sample_article <= 15003
  /\ ([EvHttpGet sample_url] = [EvHttpGet sample_url]
      \/ [EvHttpGet sample_url]
         = [EvHttpGet sample_url; st_warning (MsgTruncated 15000)]).
Proof.
  apply (get_article_text_returns_bounded_text world_unavailable sample_url
           sample_article [EvHttpGet sample_url]).
  reflexivity.
Defined.

(** X6. A non-empty extracted text of at most 15000 characters, the cap
    included, is returned unchanged and without the truncation warning. *)
Theorem get_article_text_keeps_text_within_cap :
  forall (w : World) (url : str) (soup : Soup) (article_text : str),
    requests_get w url = Returned soup ->
    Newsapp.extracted_text soup = Returned article_text ->
    0 < len article_text <= 15000 ->
    Newsapp.get_article_text w url = (Text article_text, [EvHttpGet url]).
Proof.
  intros w url soup a Hget Htext Hlen.
  unfold Newsapp.get_article_text. rewrite Hget, Htext.
  rewrite truthy_len by lia. cbn [negb]. unfold Newsapp.max_length.
  replace (len a >? 15000) with false; [reflexivity|].
  symmetry. rewrite Z.gtb_ltb. apply Z.ltb_ge. lia.
Qed.

Lemma get_article_text_keeps_text_within_cap_witness :
  Newsapp.get_article_text world_unavailable sample_url
  = (Text sample_article, [EvHttpGet sample_url]).
Proof.
  apply (get_article_text_keeps_text_within_cap world_unavailable sample_url
           sample_page sample_article).
  - reflexivity.
  - reflexivity.
  - split; [reflexivity | discriminate].
Defined.

(** X7. [get_article_text] reports every failure as one of three messages
    and returns after the one page request: the request-failed message for a
    [RequestException], the processing-failed message for any other
    exception, and the no-content message for a page whose text is empty. *)
Theorem get_article_text_failures :
  forall (w : World) (url : str) (m : Message) (evs : list Event),
    Newsapp.get_article_text w url = (Error m, evs) ->
    evs = [EvHttpGet url]
    /\ ((exists e, m = MsgRequestFailed e /\ isinstance e RequestException = true
                   /\ requests_get w url = Raised e)
        \/ (exists e, m = MsgProcessingFailed e
                      /\ isinstance e RequestException = false)
        \/ (m = MsgNoContent
            /\ exists soup, requests_get w url = Returned soup
                            /\ Newsapp.extracted_text soup = Returned "")).
Proof.
  intros w url m evs. unfold Newsapp.get_article_text, Newsapp.fetch_error.
  destruct (requests_get w url) as [soup|e].
  - destruct (Newsapp.extracted_text soup) as [a|e] eqn:Hx.
    + destruct a as [|c a]; cbn [truthy negb].
      * intros [= <- <-]. split; [reflexivity|]. right. right. eauto.
      * destruct (_ >? _); discriminate.
    + destruct (isinstance e RequestException) eqn:Hc; intros [= <- <-].
      * split; [reflexivity|].
        unfold Newsapp.extracted_text in Hx.
        destruct (_ <? _); [|discriminate].
        destruct (body_text soup); [discriminate|].
        injection Hx as <-. discriminate.
      * split; [reflexivity|]. right. left. eauto.
  - destruct (isinstance e RequestException) eqn:Hc; intros [= <- <-].
    + split; [reflexivity|]. left. eauto.
    + split; [reflexivity|]. right. left. eauto.
Qed.

Lemma get_article_text_failures_witness :
  [EvHttpGet sample_url] = [EvHttpGet sample_url]
  /\ ((exists e, MsgRequestFailed (mkExc RequestException "404 Client Error")
                 = MsgRequestFailed e
                 /\ isinstance e RequestException = true
                 /\ requests_get world_offline sample_url = Raised e)
      \/ (exists e, MsgRequestFailed (mkExc RequestException "404 Client Error")
                    = MsgProcessingFailed e
                    /\ isinstance e RequestException = false)
      \/ (MsgRequestFailed (mkExc RequestException "404 Client Error")
          = MsgNoContent
          /\ exists soup, requests_get world_offline sample_url = Returned soup
                          /\ Newsapp.extracted_text soup = Returned "")).
Proof.
  apply (get_article_text_failures world_offline sample_url
           (MsgRequestFailed (mkExc RequestException "404 Client Error"))
           [EvHttpGet sample_url]).
  reflexivity.
Defined.

(** X8. When the paragraphs and headings of the page give fewer than 100
    characters, that text is dropped for the body text; on a page without a
    body the fetch then fails with the processing-failed message, although
    some text had been found. *)
Theorem get_article_text_short_page_without_body :
  forall (w : World) (url : str) (soup : Soup),
    requests_get w url = Returned soup ->
    len (join newline (filter truthy (map strip (find_all_text soup)))) < 100 ->
    body_text soup = None ->
    exists e,
      Newsapp.get_article_text w url = (Error (MsgProcessingFailed e), [EvHttpGet url])
      /\ isinstance e RequestException = false.
Proof.
  intros w url soup Hget Hshort Hbody.
  unfold Newsapp.get_article_text, Newsapp.extracted_text.
  rewrite Hget, Hbody.
  replace (_ <? 100) with true by (symmetry; apply Z.ltb_lt; exact Hshort).
  eexists. split; reflexivity.
Qed.

Lemma get_article_text_short_page_without_body_witness :
  exists e,
    Newsapp.get_article_text world_bodiless sample_url
    = (Error (MsgProcessingFailed e), [EvHttpGet sample_url])
    /\ isinstance e RequestException = false.
Proof.
  apply (get_article_text_short_page_without_body world_bodiless sample_url
           bodiless_page).
  - reflexivity.
  - reflexivity.
  - reflexivity.
Defined.

(** ** The two scripts, stage by stage *)

Lemma total_wait_app (a b : list Event) :
  total_wait (a ++ b) = total_wait a + total_wait b.
Proof.
  unfold total_wait. rewrite sleeps_app.
  induction (sleeps a) as [|x l IH]; cbn; [reflexivity|]. rewrite IH. lia.
Qed.

(** One retried call with the default of three attempts. *)
Lemma retry_default_cost (w : World) (client : Client) (contents : list Prompt)
    (config : option GenerateContentConfig) (n : nat) :
  (1 <= ncalls (snd (make_gemini_call_with_retry w client contents config
                       default_max_retries n)) <= 3)%nat
  /\ 0 <= total_wait (snd (make_gemini_call_with_retry w client contents config
                             default_max_retries n)) <= 3.
Proof.
  unfold make_gemini_call_with_retry.
  destruct (retry_loop_total_wait w client (mkRequest MODEL_NAME contents config)
              default_max_retries n ltac:(reflexivity)) as (Hc & _ & Ht).
  change (Z.to_nat default_max_retries) with 3%nat in Hc.
  split; [exact Hc|]. rewrite Ht.
  set (k := ncalls _) in *.
  assert (Hk : k = 1%nat \/ k = 2%nat \/ k = 3%nat) by lia.
  destruct Hk as [-> | [-> | ->]]; cbn; lia.
Qed.

(** The local-scrape script up to the clean text, case by case. *)
Lemma newsapp_prepare_eq (w : World) (inp : Inputs) :
  input_validation inp = None ->
  Newsapp.prepare w inp 0%nat
  = match Newsapp.get_article_text w (news_url inp) with
    | (Error m, fetched) => (None, fetched ++ [st_error m; st_stop])
    | (Text noisy, fetched) =>
        if negb (truthy noisy) || (len noisy <? 50)
        then (None, fetched ++ [st_error MsgNoMeaningfulText; st_stop])
        else
          match genai_Client w (gemini_api_key inp) with
          | Raised e =>
              (None, fetched ++ [st_success MsgFetched;
                                 EvClient (gemini_api_key inp);
                                 st_error (MsgClientInit e); st_stop])
          | Returned client =>
              (Some (client, fst (Newsapp.clean_stage w client noisy 0%nat)),
               fetched ++ [st_success MsgFetched; EvClient (gemini_api_key inp)]
                 ++ snd (Newsapp.clean_stage w client noisy 0%nat))
          end
    end.
Proof.
  intros Hv.
  pose proof (get_article_text_ncalls w (news_url inp)) as Hn.
  unfold Newsapp.prepare. rewrite Hv. unfold bind at 1.
  destruct (Newsapp.get_article_text w (news_url inp)) as [[noisy|m] fetched];
    cbn [snd] in Hn; [|reflexivity].
  destruct (negb (truthy noisy) || (len noisy <? 50)); [reflexivity|].
  unfold bind, emit, ret. rewrite Hn.
  cbn [ncalls filter is_generate List.length app Nat.add].
  destruct (genai_Client w (gemini_api_key inp)) as [client|e]; [|reflexivity].
  destruct (Newsapp.clean_stage w client noisy 0%nat) as [clean evs].
  cbn [fst snd]. now rewrite app_nil_r.
Qed.

(** The delegated script up to the clean text, case by case. *)
Lemma newsapp2_prepare_eq (w : World) (inp : Inputs) :
  input_validation inp = None ->
  Newsapp2.prepare w inp 0%nat
  = match genai_Client w (gemini_api_key inp) with
    | Raised e =>
        (None, [EvClient (gemini_api_key inp); st_error (MsgClientInit e); st_stop])
    | Returned client =>
        match Newsapp2.extract_article_content w client (news_url inp) 0%nat with
        | (Error m, fetched) =>
            (None, EvClient (gemini_api_key inp) :: fetched
                     ++ [st_error m; st_stop])
        | (Text clean, fetched) =>
            if negb (truthy clean) || (len clean <? 50)
            then (None, EvClient (gemini_api_key inp) :: fetched
                          ++ [st_error MsgNoMeaningfulText; st_stop])
            else (Some (client, clean),
                  EvClient (gemini_api_key inp) :: fetched
                    ++ [st_success MsgFetchedAndCleaned])
        end
    end.
Proof.
  intros Hv. unfold Newsapp2.prepare. rewrite Hv.
  unfold bind at 1. unfold emit at 1.
  destruct (genai_Client w (gemini_api_key inp)) as [client|e]; [|reflexivity].
  unfold bind at 1. cbn [ncalls filter is_generate List.length Nat.add].
  destruct (Newsapp2.extract_article_content w client (news_url inp) 0%nat)
    as [[clean|m] fetched]; [|reflexivity].
  destruct (negb (truthy clean) || (len clean <? 50)); reflexivity.
Qed.

Lemma main_of_eq (v : Variant) (w : World) (inp : Inputs) :
  process_button inp = true ->
  main_of v w inp
  = snd (prepare_of v w inp 0%nat)
    ++ match fst (prepare_of v w inp 0%nat) with
       | Some (client, clean) =>
           snd (report_stages w client clean
                  (ncalls (snd (prepare_of v w inp 0%nat))))
       | None => []
       end.
Proof.
  intros Hb. destruct v; cbn [main_of prepare_of];
    [apply newsapp_main_snd | apply newsapp2_main_snd]; exact Hb.
Qed.

Lemma valid_inputs_validation (inp : Inputs) :
  input_validation inp = None <-> valid_inputs inp = true.
Proof.
  unfold input_validation, valid_inputs.
  destruct (truthy (news_url inp)); cbn; [|split; discriminate].
  destruct (truthy (gemini_api_key inp)); cbn; [|split; discriminate].
  destruct (_ || _); cbn; split; congruence.
Qed.

(** X9. Widget values that fail the input validation (an empty URL, an
    empty key, or a URL that starts with neither "http://" nor "https://")
    end either script after one message and [st.stop()]: no page is
    fetched, no client is built and no generation call is issued. *)
Theorem rejected_inputs_issue_no_call :
  forall (v : Variant) (w : World) (inp : Inputs),
    process_button inp = true ->
    valid_inputs inp = false ->
    (exists m, main_of v w inp = [m; st_stop]
               /\ (m = st_info MsgEnterUrl \/ m = st_error MsgEnterKey
                   \/ m = st_error MsgBadUrl))
    /\ forallb (fun e => negb (is_external e)) (main_of v w inp) = true.
Proof.
  intros v w inp Hb Hinv.
  destruct (input_validation inp) as [evs|] eqn:Hv.
  2:{ apply valid_inputs_validation in Hv. congruence. }
  assert (Hmain : main_of v w inp = evs).
  { rewrite (main_of_eq v w inp Hb).
    destruct v; cbn [prepare_of];
      [unfold Newsapp.prepare | unfold Newsapp2.prepare];
      rewrite Hv; cbn [fst snd]; apply app_nil_r. }
  rewrite Hmain.
  apply input_validation_events in Hv as [-> | [-> | ->]];
    (split; [eexists; split; [reflexivity | tauto] | reflexivity]).
Qed.

Lemma rejected_inputs_issue_no_call_witness :
  (exists m,
     main_of LocalScrape world_complete (mkInputs "ftp://example.com" "key" true)
     = [m; st_stop]
     /\ (m = st_info MsgEnterUrl \/ m = st_error MsgEnterKey
         \/ m = st_error MsgBadUrl))
  /\ forallb (fun e => negb (is_external e))
       (main_of LocalScrape world_complete
          (mkInputs "ftp://example.com" "key" true)) = true.
Proof.
  apply (rejected_inputs_issue_no_call LocalScrape world_complete
           (mkInputs "ftp://example.com" "key" true)).
  - reflexivity.
  - reflexivity.
Defined.

Lemma get_article_text_events (w : World) (url : str) :
  snd (Newsapp.get_article_text w url) = [EvHttpGet url]
  \/ (snd (Newsapp.get_article_text w url)
      = [EvHttpGet url; st_warning (MsgTruncated Newsapp.max_length)]
      /\ exists t, fst (Newsapp.get_article_text w url) = Text t).
Proof.
  unfold Newsapp.get_article_text.
  destruct (requests_get w url) as [soup|e]; [|now left].
  destruct (Newsapp.extracted_text soup) as [t|e]; [|now left].
  destruct (negb (truthy t)); [now left|].
  destruct (len t >? Newsapp.max_length); [|now left].
  right. split; [reflexivity | eexists; reflexivity].
Qed.

(** X10. In the local-scrape script a failed fetch ends the run: the page
    request, the error message and [st.stop()] are the whole trace, so no
    client is built and no generation call is issued. *)
Theorem fetch_failure_stops_local_run :
  forall (w : World) (inp : Inputs) (m : Message),
    process_button inp = true ->
    valid_inputs inp = true ->
    fst (Newsapp.get_article_text w (news_url inp)) = Error m ->
    Newsapp.main w inp = [EvHttpGet (news_url inp); st_error m; st_stop].
Proof.
  intros w inp m Hb Hv Hget. apply valid_inputs_validation in Hv.
  rewrite (newsapp_main_snd w inp Hb), (newsapp_prepare_eq w inp Hv).
  destruct (get_article_text_events w (news_url inp)) as [He | [_ [t Ht]]];
    [|congruence].
  destruct (Newsapp.get_article_text w (news_url inp)) as [r fetched].
  cbn [fst snd] in *. subst r fetched. reflexivity.
Qed.

Lemma fetch_failure_stops_local_run_witness :
  Newsapp.main world_offline sample_inputs
  = [EvHttpGet (news_url sample_inputs);
     st_error (MsgRequestFailed (mkExc RequestException "404 Client Error"));
     st_stop].
Proof.
  apply (fetch_failure_stops_local_run world_offline sample_inputs
           (MsgRequestFailed (mkExc RequestException "404 Client Error"))).
  - reflexivity.
  - reflexivity.
  - reflexivity.
Defined.

Lemma extract_article_content_eq (w : World) (client : Client) (url : str)
    (n : nat) :
  Newsapp2.extract_article_content w client url n
  = (match response_text
             (fst (make_gemini_call_with_retry w client
                     [url_extraction_prompt url]
                     (Some Newsapp2.extraction_config) default_max_retries n))
     with
     | Some t => Text (strip t)
     | None => Error MsgUrlExtractionFailed
     end,
     st_subheader HeadFetchAndClean
       :: snd (make_gemini_call_with_retry w client [url_extraction_prompt url]
                 (Some Newsapp2.extraction_config) default_max_retries n)).
Proof.
  unfold Newsapp2.extract_article_content, bind, emit, ret.
  cbn [ncalls filter is_generate List.length app].
  rewrite Nat.add_0_r.
  destruct (make_gemini_call_with_retry w client [url_extraction_prompt url]
              (Some Newsapp2.extraction_config) default_max_retries n)
    as [response evs].
  cbn [fst snd]. destruct (response_text response); now rewrite app_nil_r.
Qed.

Lemma extract_main_content_eq (w : World) (client : Client) (noisy : str)
    (n : nat) :
  Newsapp.extract_main_content_with_gemini w client noisy n
  = (match response_text
             (fst (make_gemini_call_with_retry w client [extraction_prompt noisy]
                     (Some Newsapp.extraction_config) default_max_retries n))
     with
     | Some t => Text (strip t)
     | None => Error MsgExtractionFailed
     end,
     snd (make_gemini_call_with_retry w client [extraction_prompt noisy]
            (Some Newsapp.extraction_config) default_max_retries n)).
Proof.
  unfold Newsapp.extract_main_content_with_gemini, bind, ret.
  destruct (make_gemini_call_with_retry w client [extraction_prompt noisy]
              (Some Newsapp.extraction_config) default_max_retries n)
    as [response evs].
  cbn [fst snd]. destruct (response_text response); now rewrite app_nil_r.
Qed.

(** X11. In the delegated script a failed extraction (the retried call
    gives no text) ends the run after the extraction-failed message: the
    only generation calls are those of the extraction, and the summary and
    vocabulary stages do not start. *)
Theorem extraction_failure_stops_delegated_run :
  forall (w : World) (inp : Inputs) (client : Client),
    process_button inp = true ->
    valid_inputs inp = true ->
    genai_Client w (gemini_api_key inp) = Returned client ->
    response_text
      (fst (make_gemini_call_with_retry w client
              [url_extraction_prompt (news_url inp)]
              (Some Newsapp2.extraction_config) default_max_retries 0%nat))
      = None ->
    Newsapp2.main w inp
    = [EvClient (gemini_api_key inp); st_subheader HeadFetchAndClean]
      ++ snd (make_gemini_call_with_retry w client
                [url_extraction_prompt (news_url inp)]
                (Some Newsapp2.extraction_config) default_max_retries 0%nat)
      ++ [st_error MsgUrlExtractionFailed; st_stop]
    /\ forall c r, In (EvGenerate c r) (Newsapp2.main w inp) ->
         c = client /\ r = fetch_request (news_url inp).
Proof.
  intros w inp client Hb Hv Hclient Hnone. apply valid_inputs_validation in Hv.
  pose proof (extract_article_content_eq w client (news_url inp) 0%nat) as Hx.
  rewrite Hnone in Hx.
  assert (Hmain : Newsapp2.main w inp
    = [EvClient (gemini_api_key inp); st_subheader HeadFetchAndClean]
      ++ snd (make_gemini_call_with_retry w client
                [url_extraction_prompt (news_url inp)]
                (Some Newsapp2.extraction_config) default_max_retries 0%nat)
      ++ [st_error MsgUrlExtractionFailed; st_stop]).
  { rewrite (newsapp2_main_snd w inp Hb), (newsapp2_prepare_eq w inp Hv).
    rewrite Hclient, Hx. cbn [fst snd app]. now rewrite app_nil_r. }
  split; [exact Hmain|].
  intros c r Hin. rewrite Hmain in Hin.
  pose proof (retry_events w client [url_extraction_prompt (news_url inp)]
                (Some Newsapp2.extraction_config) default_max_retries 0%nat) as Hr.
  rewrite Forall_forall in Hr.
  apply in_app_or in Hin as [Hin|Hin]; [cbn in Hin; intuition discriminate|].
  apply in_app_or in Hin as [Hin|Hin]; [|cbn in Hin; intuition discriminate].
  exact (Hr _ Hin).
Qed.

Lemma extraction_failure_stops_delegated_run_witness :
  Newsapp2.main world_unavailable sample_inputs
  = [EvClient (gemini_api_key sample_inputs); st_subheader HeadFetchAndClean]
    ++ snd (make_gemini_call_with_retry world_unavailable sample_client
              [url_extraction_prompt (news_url sample_inputs)]
              (Some Newsapp2.extraction_config) default_max_retries 0%nat)
    ++ [st_error MsgUrlExtractionFailed; st_stop]
  /\ forall c r, In (EvGenerate c r) (Newsapp2.main world_unavailable sample_inputs) ->
       c = sample_client /\ r = fetch_request (news_url sample_inputs).
Proof.
  apply (extraction_failure_stops_delegated_run world_unavailable sample_inputs
           sample_client).
  - reflexivity.
  - reflexivity.
  - reflexivity.
  - reflexivity.
Defined.

(** ** Every run as a sequence of retried calls *)

Lemma stage_calls_app (w : World) (inp : Inputs) (k1 k2 : nat)
    (a b : list Event) :
  stage_calls w inp k1 a -> stage_calls w inp k2 b ->
  stage_calls w inp (k1 + k2) (a ++ b).
Proof.
  intros Ha Hb. induction Ha as [|e rest k Hq Ha IH|c cs cf n rest k Hc Ha IH].
  - exact Hb.
  - cbn [app]. now apply sc_quiet.
  - rewrite <- app_assoc. cbn [Nat.add]. now apply sc_call.
Qed.

Lemma stage_calls_quiet (w : World) (inp : Inputs) (evs : list Event) :
  forallb is_quiet evs = true -> stage_calls w inp 0 evs.
Proof.
  induction evs as [|e evs IH]; cbn [forallb]; [constructor|].
  intros H. apply andb_true_iff in H as [He Hevs]. apply sc_quiet; auto.
Qed.

Lemma stage_calls_one (w : World) (inp : Inputs) (client : Client)
    (contents : list Prompt) (config : option GenerateContentConfig) (n : nat) :
  genai_Client w (gemini_api_key inp) = Returned client ->
  stage_calls w inp 1
    (snd (make_gemini_call_with_retry w client contents config
            default_max_retries n)).
Proof.
  intros Hc. rewrite <- (app_nil_r (snd _)). apply sc_call; [exact Hc | constructor].
Qed.

Lemma stage_calls_budget (w : World) (inp : Inputs) (k : nat) (evs : list Event) :
  stage_calls w inp k evs -> within_budget evs (3 * k).
Proof.
  induction 1 as [|e rest k Hq _ IH|c cs cf n rest k _ _ IH].
  - cbn. unfold within_budget. cbn. lia.
  - destruct IH as [Hn Ht]. unfold within_budget.
    change (e :: rest) with ([e] ++ rest). rewrite ncalls_app, total_wait_app.
    destruct e; try discriminate; cbn; lia.
  - destruct IH as [Hn Ht].
    destruct (retry_default_cost w c cs cf n) as [Hc Hw].
    unfold within_budget. rewrite ncalls_app, total_wait_app. lia.
Qed.

Lemma retry_event_uses_run_client (w : World) (inp : Inputs) (client : Client)
    (request : Request) (e : Event) :
  genai_Client w (gemini_api_key inp) = Returned client ->
  model request = MODEL_NAME ->
  retry_event client request e -> uses_run_client w inp e.
Proof.
  intros Hc Hm. destruct e; cbn; try tauto. intros [-> ->]. auto.
Qed.

Lemma stage_calls_client (w : World) (inp : Inputs) (k : nat) (evs : list Event) :
  stage_calls w inp k evs -> Forall (uses_run_client w inp) evs.
Proof.
  induction 1 as [|e rest k Hq _ IH|c cs cf n rest k Hc _ IH].
  - constructor.
  - constructor; [|exact IH]. destruct e; try discriminate; exact I.
  - apply Forall_app. split; [|exact IH].
    eapply Forall_impl; [|apply retry_events].
    intros e. now apply retry_event_uses_run_client.
Qed.

Lemma clean_stage_calls (w : World) (inp : Inputs) (client : Client)
    (noisy : str) (n : nat) :
  genai_Client w (gemini_api_key inp) = Returned client ->
  stage_calls w inp 1 (snd (Newsapp.clean_stage w client noisy n)).
Proof.
  intros Hc. rewrite clean_stage_trace. cbv zeta.
  rewrite extract_main_content_eq. cbn [fst snd].
  destruct (response_text _); cbn [snd];
    (apply sc_quiet; [reflexivity|]);
    apply (stage_calls_app w inp 1 0);
    [now apply stage_calls_one | now apply stage_calls_quiet
    |now apply stage_calls_one | now apply stage_calls_quiet].
Qed.

Lemma vocab_outcome_quiet (w : World) (response : option Response) :
  forallb is_quiet (vocab_outcome w response) = true.
Proof.
  unfold vocab_outcome, show_table.
  destruct (response_text response) as [t|]; [|reflexivity].
  destruct (build_table w t) as [df|e]; [reflexivity|].
  now destruct (isinstance e JSONDecodeError).
Qed.

Lemma report_stages_calls (w : World) (inp : Inputs) (client : Client)
    (clean : str) (n : nat) :
  genai_Client w (gemini_api_key inp) = Returned client ->
  stage_calls w inp 2 (snd (report_stages w client clean n)).
Proof.
  intros Hc. rewrite report_stages_trace, summary_stage_trace, vocab_stage_trace.
  cbv zeta. cbn [app].
  do 3 (apply sc_quiet; [reflexivity|]).
  rewrite <- app_assoc.
  apply (stage_calls_app w inp 1 1); [now apply stage_calls_one|].
  cbn [app].
  apply sc_quiet; [unfold summary_outcome; now destruct (response_text _)|].
  apply sc_quiet; [reflexivity|].
  apply (stage_calls_app w inp 1 0); [now apply stage_calls_one|].
  apply stage_calls_quiet, vocab_outcome_quiet.
Qed.

Lemma get_article_text_quiet (w : World) (url : str) :
  forallb is_quiet (snd (Newsapp.get_article_text w url)) = true.
Proof.
  destruct (get_article_text_events w url) as [-> | [-> _]]; reflexivity.
Qed.

(** Either script is at most three retried calls among quiet events. *)
Lemma main_stage_calls (v : Variant) (w : World) (inp : Inputs) :
  exists k, (k <= 3)%nat /\ stage_calls w inp k (main_of v w inp).
Proof.
  destruct (process_button inp) eqn:Hb.
  2:{ exists 0%nat. split; [lia|].
      destruct v; cbn [main_of]; unfold Newsapp.main, Newsapp2.main;
        rewrite Hb; constructor. }
  rewrite (main_of_eq v w inp Hb).
  destruct (input_validation inp) as [evs|] eqn:Hv.
  { exists 0%nat. split; [lia|].
    destruct v; cbn [prepare_of];
      [unfold Newsapp.prepare | unfold Newsapp2.prepare];
      rewrite Hv; cbn [fst snd]; rewrite app_nil_r;
      apply input_validation_events in Hv as [-> | [-> | ->]];
      now apply stage_calls_quiet. }
  destruct v; cbn [prepare_of].
  - rewrite (newsapp_prepare_eq w inp Hv).
    pose proof (get_article_text_quiet w (news_url inp)) as Hq.
    destruct (Newsapp.get_article_text w (news_url inp)) as [[noisy|m] fetched];
      cbn [snd] in Hq.
    2:{ exists 0%nat. split; [lia|]. cbn [fst snd]. rewrite app_nil_r.
        apply (stage_calls_app w inp 0 0); now apply stage_calls_quiet. }
    destruct (negb (truthy noisy) || (len noisy <? 50)).
    { exists 0%nat. split; [lia|]. cbn [fst snd]. rewrite app_nil_r.
      apply (stage_calls_app w inp 0 0); now apply stage_calls_quiet. }
    destruct (genai_Client w (gemini_api_key inp)) as [client|e] eqn:Hc.
    2:{ exists 0%nat. split; [lia|]. cbn [fst snd]. rewrite app_nil_r.
        apply (stage_calls_app w inp 0 0); now apply stage_calls_quiet. }
    exists 3%nat. split; [lia|]. cbn [fst snd].
    apply (stage_calls_app w inp 1 2); [|now apply report_stages_calls].
    apply (stage_calls_app w inp 0 1); [now apply stage_calls_quiet|].
    apply (stage_calls_app w inp 0 1); [now apply stage_calls_quiet|].
    now apply clean_stage_calls.
  - rewrite (newsapp2_prepare_eq w inp Hv).
    destruct (genai_Client w (gemini_api_key inp)) as [client|e] eqn:Hc.
    2:{ exists 0%nat. split; [lia|]. cbn [fst snd].
        now apply stage_calls_quiet. }
    rewrite extract_article_content_eq.
    assert (Hx : forall tail, forallb is_quiet tail = true ->
              stage_calls w inp 1
                (EvClient (gemini_api_key inp)
                   :: (st_subheader HeadFetchAndClean
                         :: snd (make_gemini_call_with_retry w client
                                   [url_extraction_prompt (news_url inp)]
                                   (Some Newsapp2.extraction_config)
                                   default_max_retries 0%nat)) ++ tail)).
    { intros tail Ht. cbn [app]. do 2 (apply sc_quiet; [reflexivity|]).
      apply (stage_calls_app w inp 1 0);
        [now apply stage_calls_one | now apply stage_calls_quiet]. }
    destruct (response_text _) as [t|].
    + destruct (negb (truthy (strip t)) || (len (strip t) <? 50)).
      * exists 1%nat. split; [lia|]. cbn [fst snd]. rewrite app_nil_r.
        now apply Hx.
      * exists 3%nat. split; [lia|]. cbn [fst snd].
        apply (stage_calls_app w inp 1 2); [now apply Hx|].
        now apply report_stages_calls.
    + exists 1%nat. split; [lia|]. cbn [fst snd]. rewrite app_nil_r.
      now apply Hx.
Qed.

(** X12. Whatever the inputs and the service do, a run of either script
    issues at most 9 generation calls (three stages of at most three
    attempts) and spends at most 9 seconds in backoff waits. *)
Theorem run_stays_within_nine_calls :
  forall (v : Variant) (w : World) (inp : Inputs),
    (ncalls (main_of v w inp) <= 9)%nat
    /\ 0 <= total_wait (main_of v w inp) <= 9.
Proof.
  intros v w inp.
  destruct (main_stage_calls v w inp) as (k & Hk & Hs).
  apply stage_calls_budget in Hs as [Hn Ht]. lia.
Qed.

(** X13. Every generation call of a run, in either script, goes through
    the client that [genai.Client] returned for the key entered in the
    sidebar and names the model "gemini-2.5-flash". *)
Theorem generation_calls_use_the_run_client :
  forall (v : Variant) (w : World) (inp : Inputs) (c : Client) (r : Request),
    In (EvGenerate c r) (main_of v w inp) ->
    genai_Client w (gemini_api_key inp) = Returned c
    /\ model r = "gemini-2.5-flash".
Proof.
  intros v w inp c r Hin.
  destruct (main_stage_calls v w inp) as (k & _ & Hs).
  apply stage_calls_client in Hs. rewrite Forall_forall in Hs.
  exact (Hs _ Hin).
Qed.

Lemma generation_calls_use_the_run_client_witness :
  genai_Client world_complete (gemini_api_key sample_inputs)
    = Returned sample_client
  /\ model (vocab_request sample_article) = "gemini-2.5-flash".
Proof.
  apply (generation_calls_use_the_run_client LocalScrape world_complete
           sample_inputs sample_client (vocab_request sample_article)).
  cbn. do 12 right. left. reflexivity.
Defined.

(** ** What the later stages receive *)

(** The stages after the clean text: its display, the summary call, the
    vocabulary call. *)
Lemma report_stages_calls_on_clean_text (w : World) (client : Client)
    (clean : str) (n : nat) :
  exists summary_rest vocab_rest,
    snd (report_stages w client clean n)
    = [st_header HeadCleanText; st_text_area clean; st_header HeadSummary;
       EvGenerate client (summary_request clean)]
      ++ summary_rest
      ++ [st_header HeadVocabulary; EvGenerate client (vocab_request clean)]
      ++ vocab_rest.
Proof.
  rewrite report_stages_trace, summary_stage_trace, vocab_stage_trace. cbv zeta.
  set (m := (n + _)%nat).
  destruct (retry_first_call w client [summary_prompt clean] (Some summary_config) n)
    as [srest ->].
  destruct (retry_first_call w client [vocab_prompt clean] (Some vocab_config) m)
    as [vrest Hv].
  set (vcall := make_gemini_call_with_retry w client [vocab_prompt clean]
                  (Some vocab_config) default_max_retries m) in *.
  rewrite Hv.
  exists (srest ++ [summary_outcome
                      (fst (make_gemini_call_with_retry w client
                              [summary_prompt clean] (Some summary_config)
                              default_max_retries n))]),
         (vrest ++ vocab_outcome w (fst vcall)).
  cbn [app]. rewrite <- !app_assoc. reflexivity.
Qed.

Lemma report_stages_not_stop (w : World) (client : Client) (clean : str)
    (n : nat) :
  ~ In st_stop (snd (report_stages w client clean n)).
Proof.
  rewrite report_stages_trace, summary_stage_trace, vocab_stage_trace. cbv zeta.
  apply not_in_app; [cbn; intuition discriminate|].
  apply not_in_app.
  - intros [Hin|Hin]; [discriminate|].
    apply in_app_or in Hin as [Hin|Hin].
    + exact (retry_event_not_stop _ _ _ (retry_events _ _ _ _ _ _) Hin).
    + destruct Hin as [Hin|[]]. revert Hin. unfold summary_outcome.
      now destruct (response_text _).
  - intros [Hin|Hin]; [discriminate|].
    apply in_app_or in Hin as [Hin|Hin].
    + exact (retry_event_not_stop _ _ _ (retry_events _ _ _ _ _ _) Hin).
    + exact (vocab_outcome_not_stop _ _ Hin).
Qed.

(** X14. In either script, once the clean text is fixed it is the text
    shown in the text area and the text of both later prompts: the summary
    call and the vocabulary call are both issued on it, in that order,
    whatever the summary call gives. *)
Theorem later_stages_share_the_clean_text :
  forall (v : Variant) (w : World) (inp : Inputs) (client : Client)
         (clean : str) (before : list Event),
    process_button inp = true ->
    prepare_of v w inp 0%nat = (Some (client, clean), before) ->
    exists summary_rest vocab_rest,
      main_of v w inp
      = before
        ++ [st_header HeadCleanText; st_text_area clean; st_header HeadSummary;
            EvGenerate client (summary_request clean)]
        ++ summary_rest
        ++ [st_header HeadVocabulary; EvGenerate client (vocab_request clean)]
        ++ vocab_rest.
Proof.
  intros v w inp client clean before Hb Hp.
  rewrite (main_of_trace v w inp client clean before Hb Hp).
  destruct (report_stages_calls_on_clean_text w client clean (ncalls before))
    as (srest & vrest & ->).
  now exists srest, vrest.
Qed.

Lemma later_stages_share_the_clean_text_witness :
  exists summary_rest vocab_rest,
    main_of LocalScrape world_complete sample_inputs
    = [EvHttpGet sample_url; st_success MsgFetched; EvClient "key";
       st_subheader HeadCleaning;
       EvGenerate sample_client (clean_request sample_article);
       st_success MsgCleaned]
      ++ [st_header HeadCleanText; st_text_area sample_article;
          st_header HeadSummary;
          EvGenerate sample_client (summary_request sample_article)]
      ++ summary_rest
      ++ [st_header HeadVocabulary;
          EvGenerate sample_client (vocab_request sample_article)]
      ++ vocab_rest.
Proof.
  apply (later_stages_share_the_clean_text LocalScrape world_complete
           sample_inputs sample_client sample_article
           [EvHttpGet sample_url; st_success MsgFetched; EvClient "key";
            st_subheader HeadCleaning;
            EvGenerate sample_client (clean_request sample_article);
            st_success MsgCleaned]).
  - reflexivity.
  - reflexivity.
Defined.

(** X15. In the local-scrape script, when the cleaning call gives a text
    the clean text is that text stripped, and it is not checked again: even
    when nothing is left after stripping, the run goes on, shows it and
    issues the summary call on it. *)
Theorem cleaned_text_is_stripped_and_not_rechecked :
  forall (w : World) (inp : Inputs) (noisy : str) (fetched : list Event)
         (client : Client) (t : str),
    process_button inp = true ->
    valid_inputs inp = true ->
    Newsapp.get_article_text w (news_url inp) = (Text noisy, fetched) ->
    50 <= len noisy ->
    genai_Client w (gemini_api_key inp) = Returned client ->
    response_text
      (fst (make_gemini_call_with_retry w client [extraction_prompt noisy]
              (Some Newsapp.extraction_config) default_max_retries 0%nat))
      = Some t ->
    fst (Newsapp.prepare w inp 0%nat) = Some (client, strip t)
    /\ In (st_success MsgCleaned) (Newsapp.main w inp)
    /\ In (st_text_area (strip t)) (Newsapp.main w inp)
    /\ In (EvGenerate client (summary_request (strip t))) (Newsapp.main w inp)
    /\ ~ In st_stop (Newsapp.main w inp).
Proof.
  intros w inp noisy fetched client t Hb Hv Hget Hlen Hclient Htext.
  apply valid_inputs_validation in Hv.
  pose proof (newsapp_prepare_clean w inp noisy fetched client Hv Hget Hlen Hclient)
    as Hp.
  rewrite clean_stage_trace in Hp. cbv zeta in Hp.
  rewrite extract_main_content_eq in Hp. cbn [fst snd] in Hp.
  rewrite Htext in Hp. cbn [fst snd] in Hp.
  pose proof (prepare_of_not_stop LocalScrape w inp client (strip t) _ Hp) as Hns.
  pose proof (main_of_trace LocalScrape w inp client (strip t) _ Hb Hp) as Hmain.
  cbn [main_of] in Hmain.
  destruct (report_stages_calls_on_clean_text w client (strip t)
              (ncalls (fetched ++ [st_success MsgFetched;
                                   EvClient (gemini_api_key inp)]
                         ++ st_subheader HeadCleaning
                            :: snd (make_gemini_call_with_retry w client
                                      [extraction_prompt noisy]
                                      (Some Newsapp.extraction_config)
                                      default_max_retries 0%nat)
                               ++ [st_success MsgCleaned])))
    as (srest & vrest & Hrep).
  split; [now rewrite Hp|].
  split; [|split; [|split]].
  - rewrite Hmain. apply in_or_app. left.
    apply in_or_app. right. apply in_or_app. right.
    right. apply in_or_app. right. now left.
  - rewrite Hmain, Hrep. apply in_or_app. right. right. now left.
  - rewrite Hmain, Hrep. apply in_or_app. right. do 3 right. now left.
  - rewrite Hmain. apply not_in_app; [exact Hns | apply report_stages_not_stop].
Qed.

Lemma cleaned_text_is_stripped_and_not_rechecked_witness :
  fst (Newsapp.prepare world_blank_cleaning sample_inputs 0%nat)
    = Some (sample_client, "")
  /\ In (st_success MsgCleaned) (Newsapp.main world_blank_cleaning sample_inputs)
  /\ In (st_text_area "") (Newsapp.main world_blank_cleaning sample_inputs)
  /\ In (EvGenerate sample_client (summary_request ""))
        (Newsapp.main world_blank_cleaning sample_inputs)
  /\ ~ In st_stop (Newsapp.main world_blank_cleaning sample_inputs).
Proof.
  apply (cleaned_text_is_stripped_and_not_rechecked world_blank_cleaning
           sample_inputs sample_article [EvHttpGet sample_url] sample_client
           "   ").
  - reflexivity.
  - reflexivity.
  - reflexivity.
  - discriminate.
  - reflexivity.
  - reflexivity.
Defined.

(** X16. In every stage a response without text counts as a failed call:
    when [response.text] is [None] or empty, the summary stage shows the
    no-summary error, the vocabulary stage the no-vocabulary error, and the
    two extraction functions return their error message. *)
Theorem answer_without_text_counts_as_failure :
  forall (w : World) (client : Client) (input : str) (n : nat)
         (response : Response),
    text response = None \/ text response = Some "" ->
    (fst (make_gemini_call_with_retry w client [summary_prompt input]
            (Some summary_config) default_max_retries n) = Some response ->
     snd (summary_stage w client input n)
     = st_header HeadSummary
         :: snd (make_gemini_call_with_retry w client [summary_prompt input]
                   (Some summary_config) default_max_retries n)
         ++ [st_error MsgNoSummary])
    /\ (fst (make_gemini_call_with_retry w client [vocab_prompt input]
               (Some vocab_config) default_max_retries n) = Some response ->
        snd (vocab_stage w client input n)
        = st_header HeadVocabulary
            :: snd (make_gemini_call_with_retry w client [vocab_prompt input]
                      (Some vocab_config) default_max_retries n)
            ++ [st_error MsgNoVocab])
    /\ (fst (make_gemini_call_with_retry w client [extraction_prompt input]
               (Some Newsapp.extraction_config) default_max_retries n)
          = Some response ->
        fst (Newsapp.extract_main_content_with_gemini w client input n)
          = Error MsgExtractionFailed)
    /\ (fst (make_gemini_call_with_retry w client [url_extraction_prompt input]
               (Some Newsapp2.extraction_config) default_max_retries n)
          = Some response ->
        fst (Newsapp2.extract_article_content w client input n)
          = Error MsgUrlExtractionFailed).
Proof.
  intros w client input n response Hempty.
  assert (Hnone : response_text (Some response) = None).
  { unfold response_text. destruct Hempty as [-> | ->]; reflexivity. }
  repeat split; intros Hcall.
  - rewrite summary_stage_trace. cbv zeta. unfold summary_outcome.
    now rewrite Hcall, Hnone.
  - rewrite vocab_stage_trace. cbv zeta. unfold vocab_outcome.
    now rewrite Hcall, Hnone.
  - rewrite extract_main_content_eq. cbn [fst]. now rewrite Hcall, Hnone.
  - rewrite extract_article_content_eq. cbn [fst]. now rewrite Hcall, Hnone.
Qed.

Lemma answer_without_text_counts_as_failure_witness :
  snd (summary_stage (world_answering "") sample_client sample_article 0%nat)
    = [st_header HeadSummary;
       EvGenerate sample_client (summary_request sample_article);
       st_error MsgNoSummary]
  /\ snd (vocab_stage (world_answering "") sample_client sample_article 0%nat)
     = [st_header HeadVocabulary;
        EvGenerate sample_client (vocab_request sample_article);
        st_error MsgNoVocab]
  /\ fst (Newsapp.extract_main_content_with_gemini (world_answering "")
            sample_client sample_article 0%nat)
     = Error MsgExtractionFailed
  /\ fst (Newsapp2.extract_article_content (world_answering "") sample_client
            sample_article 0%nat)
     = Error MsgUrlExtractionFailed.
Proof.
  destruct (answer_without_text_counts_as_failure (world_answering "")
              sample_client sample_article 0%nat (mkResponse (Some "")))
    as (H1 & H2 & H3 & H4); [now right|].
  split; [apply H1; reflexivity|].
  split; [apply H2; reflexivity|].
  split; [apply H3; reflexivity | apply H4; reflexivity].
Defined.

(** ** More on the vocabulary table *)

(** X17. The count of five entries that the prompt asks for is not
    enforced: a response that decodes to any positive number of entries in
    the shape of the schema is shown as a table with one row per entry. *)
Theorem table_has_one_row_per_entry :
  forall (w : World) (t : str) (entries : list json) (n : nat),
    json_loads w t = Returned (JArray entries) ->
    conforms vocab_schema (JArray entries) = true ->
    entries <> [] ->
    exists df,
      snd (show_table w t n) = [st_dataframe df]
      /\ columns df = display_columns
      /\ List.length (rows df) = List.length entries
      /\ Forall (fun row => List.length row = 3%nat) (rows df).
Proof.
  intros w t entries n Hload Hconf Hne.
  destruct (build_table_conforming w t entries Hload Hconf Hne)
    as (Hbuild & Hperm & _).
  eexists. split; [|split; [|split]].
  - unfold show_table. rewrite Hbuild. reflexivity.
  - reflexivity.
  - cbn [rows]. now rewrite length_map.
  - cbn [rows]. apply Forall_forall. intros row Hin.
    apply in_map_iff in Hin as (e & <- & _).
    rewrite length_map. exact (Permutation_length Hperm).
Qed.

Lemma table_has_one_row_per_entry_witness :
  exists df,
    snd (show_table (world_with_payload (JArray one_entry))
           (json_dumps (JArray one_entry)) 0%nat) = [st_dataframe df]
    /\ columns df = display_columns
    /\ List.length (rows df) = List.length one_entry
    /\ Forall (fun row => List.length row = 3%nat) (rows df).
Proof.
  apply (table_has_one_row_per_entry (world_with_payload (JArray one_entry))
           (json_dumps (JArray one_entry)) one_entry 0%nat).
  - reflexivity.
  - reflexivity.
  - discriminate.
Defined.









(** ** Where a run stops *)

Lemma is_stop_In (e : Event) : is_stop e = true -> e = st_stop.
Proof. destruct e; (discriminate || reflexivity). Qed.

Lemma stop_only_last_app (a b : list Event) :
  ~ In st_stop a -> stop_only_last b = true -> stop_only_last (a ++ b) = true.
Proof.
  intros Ha Hb. induction a as [|x a IH]; [exact Hb|].
  cbn [app stop_only_last].
  assert (Hx : is_stop x = false).
  { destruct (is_stop x) eqn:E; [|reflexivity].
    apply is_stop_In in E. subst x. exfalso. apply Ha. now left. }
  rewrite Hx, IH by (intros H; apply Ha; now right).
  now destruct (a ++ b).
Qed.

Lemma stop_only_last_free (a : list Event) :
  ~ In st_stop a -> stop_only_last a = true.
Proof.
  intros Ha. rewrite <- (app_nil_r a). now apply stop_only_last_app.
Qed.

(** X20. In either script [st.stop()] is the end of the run: it occurs at
    most once in a trace, as its last event, so that nothing is fetched,
    called or shown after it. *)
Theorem nothing_follows_st_stop :
  forall (v : Variant) (w : World) (inp : Inputs),
    stop_only_last (main_of v w inp) = true.
Proof.
  intros v w inp.
  destruct (process_button inp) eqn:Hb.
  2:{ destruct v; cbn [main_of]; unfold Newsapp.main, Newsapp2.main;
        now rewrite Hb. }
  rewrite (main_of_eq v w inp Hb).
  destruct (prepare_of v w inp 0%nat) as [[[client clean]|] before] eqn:Hp;
    cbn [fst snd].
  { apply stop_only_last_free.
    apply not_in_app;
      [exact (prepare_of_not_stop v w inp client clean before Hp)
      |apply report_stages_not_stop]. }
  rewrite app_nil_r.
  destruct (input_validation inp) as [evs|] eqn:Hv.
  { assert (before = evs) as ->.
    { destruct v; cbn [prepare_of] in Hp;
        [unfold Newsapp.prepare in Hp | unfold Newsapp2.prepare in Hp];
        rewrite Hv in Hp; congruence. }
    apply input_validation_events in Hv as [-> | [-> | ->]]; reflexivity. }
  destruct v; cbn [prepare_of] in Hp.
  - rewrite (newsapp_prepare_eq w inp Hv) in Hp.
    pose proof (get_article_text_not_stop w (news_url inp)) as Hf.
    destruct (Newsapp.get_article_text w (news_url inp)) as [[noisy|m] fetched];
      cbn [snd] in Hf.
    2:{ injection Hp as <-. now apply stop_only_last_app. }
    destruct (negb (truthy noisy) || (len noisy <? 50)).
    { injection Hp as <-. now apply stop_only_last_app. }
    destruct (genai_Client w (gemini_api_key inp)) as [client|e]; [discriminate|].
    injection Hp as <-. now apply stop_only_last_app.
  - rewrite (newsapp2_prepare_eq w inp Hv) in Hp.
    destruct (genai_Client w (gemini_api_key inp)) as [client|e];
      [|injection Hp as <-; reflexivity].
    rewrite extract_article_content_eq in Hp.
    assert (Hns : ~ In st_stop
                      (EvClient (gemini_api_key inp)
                         :: st_subheader HeadFetchAndClean
                         :: snd (make_gemini_call_with_retry w client
                                   [url_extraction_prompt (news_url inp)]
                                   (Some Newsapp2.extraction_config)
                                   default_max_retries 0%nat))).
    { intros [H|[H|H]]; try discriminate.
      exact (retry_event_not_stop _ _ _ (retry_events _ _ _ _ _ _) H). }
    destruct (response_text _) as [t|].
    + destruct (negb (truthy (strip t)) || (len (strip t) <? 50));
        [|discriminate].
      injection Hp as <-.
      apply (stop_only_last_app (_ :: _ :: _) [_; _] Hns). reflexivity.
    + injection Hp as <-.
      apply (stop_only_last_app (_ :: _ :: _) [_; _] Hns). reflexivity.
Qed.

(** ** The text sent for cleaning *)

Lemma get_article_text_len (w : World) (url : str) (t : str) (evs : list Event) :
  Newsapp.get_article_text w url = (Text t, evs) -> 0 < len t <= 15003.
Proof.
  unfold Newsapp.get_article_text, Newsapp.fetch_error.
  destruct (requests_get w url) as [soup|e];
    [|destruct (isinstance e RequestException); discriminate].
  destruct (Newsapp.extracted_text soup) as [a|e];
    [|destruct (isinstance e RequestException); discriminate].
  destruct (truthy a) eqn:Ha; cbn [negb]; [|discriminate].
  apply len_truthy in Ha. unfold Newsapp.max_length.
  destruct (Z.gtb_spec (len a) 15000) as [Hlong|Hshort]; intros [= <- <-]; [|lia].
  unfold len, slice_to. rewrite length_append. cbn [String.length].
  rewrite (length_substring_prefix (Z.to_nat 15000) a) by (unfold len in Hlong; lia).
  lia.
Qed.

Lemma report_stages_requests (w : World) (client : Client) (clean : str)
    (n : nat) (c : Client) (r : Request) :
  In (EvGenerate c r) (snd (report_stages w client clean n)) ->
  r = summary_request clean \/ r = vocab_request clean.
Proof.
  rewrite report_stages_trace, summary_stage_trace, vocab_stage_trace. cbv zeta.
  pose proof (retry_events w client [summary_prompt clean] (Some summary_config)
                default_max_retries n) as Hs.
  set (m := (n + _)%nat).
  pose proof (retry_events w client [vocab_prompt clean] (Some vocab_config)
                default_max_retries m) as Hv.
  pose proof (vocab_outcome_quiet w
                (fst (make_gemini_call_with_retry w client [vocab_prompt clean]
                        (Some vocab_config) default_max_retries m))) as Hq.
  rewrite Forall_forall in Hs, Hv. rewrite forallb_forall in Hq.
  intros Hin.
  apply in_app_or in Hin as [Hin|Hin]; [cbn in Hin; intuition discriminate|].
  apply in_app_or in Hin as [Hin|Hin].
  - destruct Hin as [Hin|Hin]; [discriminate|].
    apply in_app_or in Hin as [Hin|Hin].
    + left. exact (proj2 (Hs _ Hin)).
    + destruct Hin as [Hin|[]]. revert Hin. unfold summary_outcome.
      destruct (response_text _); discriminate.
  - destruct Hin as [Hin|Hin]; [discriminate|].
    apply in_app_or in Hin as [Hin|Hin].
    + right. exact (proj2 (Hv _ Hin)).
    + specialize (Hq _ Hin). discriminate.
Qed.

(** X21. In the local-scrape script every cleaning request carries the
    text that [get_article_text] returned, and that text has between 50 and
    15003 characters: the cap on what is sent for cleaning holds up to the
    three characters of the truncation marker. *)
Theorem cleaning_request_text_is_bounded :
  forall (w : World) (inp : Inputs) (c : Client) (noisy : str),
    In (EvGenerate c (clean_request noisy)) (Newsapp.main w inp) ->
    fst (Newsapp.get_article_text w (news_url inp)) = Text noisy
    /\ 50 <= len noisy <= 15003.
Proof.
  intros w inp c noisy Hin.
  destruct (process_button inp) eqn:Hb.
  2:{ unfold Newsapp.main in Hin. rewrite Hb in Hin. destruct Hin. }
  rewrite (newsapp_main_snd w inp Hb) in Hin.
  destruct (input_validation inp) as [evs|] eqn:Hv.
  { unfold Newsapp.prepare in Hin. rewrite Hv in Hin. cbn [fst snd] in Hin.
    rewrite app_nil_r in Hin.
    apply input_validation_events in Hv as [-> | [-> | ->]];
      cbn in Hin; intuition discriminate. }
  rewrite (newsapp_prepare_eq w inp Hv) in Hin.
  pose proof (get_article_text_quiet w (news_url inp)) as Hq.
  rewrite forallb_forall in Hq.
  destruct (Newsapp.get_article_text w (news_url inp)) as [[t|m] fetched] eqn:Hget;
    cbn [snd] in Hq.
  2:{ cbn [fst snd] in Hin. rewrite app_nil_r in Hin.
      apply in_app_or in Hin as [Hin|Hin];
        [specialize (Hq _ Hin); discriminate | cbn in Hin; intuition discriminate]. }
  destruct (negb (truthy t) || (len t <? 50)) eqn:Hshort.
  { cbn [fst snd] in Hin. rewrite app_nil_r in Hin.
    apply in_app_or in Hin as [Hin|Hin];
      [specialize (Hq _ Hin); discriminate | cbn in Hin; intuition discriminate]. }
  destruct (genai_Client w (gemini_api_key inp)) as [client|e].
  2:{ cbn [fst snd] in Hin. rewrite app_nil_r in Hin.
      apply in_app_or in Hin as [Hin|Hin];
        [specialize (Hq _ Hin); discriminate | cbn in Hin; intuition discriminate]. }
  cbn [fst snd] in Hin.
  apply in_app_or in Hin as [Hin|Hin].
  - apply in_app_or in Hin as [Hin|Hin]; [specialize (Hq _ Hin); discriminate|].
    apply in_app_or in Hin as [Hin|Hin]; [cbn in Hin; intuition discriminate|].
    rewrite clean_stage_trace in Hin. cbv zeta in Hin.
    rewrite extract_main_content_eq in Hin. cbn [fst snd] in Hin.
    pose proof (retry_events w client [extraction_prompt t]
                  (Some Newsapp.extraction_config) default_max_retries 0%nat) as Hr.
    rewrite Forall_forall in Hr.
    assert (Hreq : clean_request noisy = clean_request t).
    { destruct (response_text _); cbn [snd] in Hin;
        (destruct Hin as [Hin|Hin]; [discriminate|]);
        (apply in_app_or in Hin as [Hin|Hin];
         [exact (proj2 (Hr _ Hin)) | cbn in Hin; intuition discriminate]). }
    injection Hreq as ->.
    split; [reflexivity|].
    apply orb_false_iff in Hshort as [_ Hlen]. apply Z.ltb_ge in Hlen.
    pose proof (get_article_text_len w (news_url inp) t fetched Hget). lia.
  - apply report_stages_requests in Hin as [Hin|Hin]; discriminate.
Qed.

Lemma cleaning_request_text_is_bounded_witness :
  fst (Newsapp.get_article_text world_complete (news_url sample_inputs))
    = Text sample_article
  /\ 50 <= len sample_article <= 15003.
Proof.
  apply (cleaning_request_text_is_bounded world_complete sample_inputs
           sample_client sample_article).
  cbn. do 4 right. left. reflexivity.
Defined.
